(** * Azure DevOps to Google Chat webhook relay

    A shallow embedding of [netlify/functions/ado_webhook.py] and the
    verification of its specification.

    Python values are modelled as the interpreter has them: a [str] is a
    sequence of Unicode code points, a parsed JSON document is a tree of
    [None], [bool], [int], [float], [str], [list] and [dict] values, and an
    operation that can raise returns a [result].  Library functions the
    module calls but does not define ([json.loads], [json.dumps],
    [base64.b64decode], [bytes.decode], [str.lower], [repr] of strings and
    floats, [requests.post]) are the fields of the class [PyRuntime].
    Calls to [logging] have no influence on any value and are left out. *)

From Stdlib Require Import List NArith ZArith Bool String Ascii Lia Floats.
From Stdlib Require Import Strings.Byte.
Import ListNotations.
Local Open Scope string_scope.
Local Open Scope list_scope.

(** ** Python strings *)

Definition pystr := list N.

(** An ASCII literal of the source, as a Python string. *)
Definition lit (s : string) : pystr :=
  List.map N_of_ascii (list_ascii_of_string s).
Coercion lit : string >-> pystr.

(** [a + b] on strings, also the pieces of an f-string. *)
Definition str_add (a b : pystr) : pystr := a ++ b.
Infix "+++" := str_add (at level 60, right associativity).

Fixpoint pystr_eqb (a b : pystr) : bool :=
  match a, b with
  | [], [] => true
  | x :: a', y :: b' => N.eqb x y && pystr_eqb a' b'
  | _, _ => false
  end.

Definition nonempty (s : pystr) : bool :=
  match s with [] => false | _ :: _ => true end.

(** [s.startswith(p)] *)
Fixpoint starts_with (p s : pystr) : bool :=
  match p, s with
  | [], _ => true
  | x :: p', y :: s' => N.eqb x y && starts_with p' s'
  | _ :: _, [] => false
  end.

(** [needle in hay] for two strings: [needle] occurs at some position. *)
Fixpoint str_contains (needle hay : pystr) : bool :=
  starts_with needle hay ||
  match hay with
  | [] => false
  | _ :: hay' => str_contains needle hay'
  end.

(** [s.split(sep)] for a non-empty [sep]: occurrences are found left to
    right and do not overlap.  [skip] counts the characters of a separator
    just matched that are still to be passed over, [cur] holds the
    current segment in reverse. *)
Fixpoint split_from (sep : pystr) (skip : nat) (cur s : pystr) : list pystr :=
  match s with
  | [] => [rev cur]
  | c :: s' =>
      match skip with
      | S k => split_from sep k cur s'
      | O =>
          if starts_with sep s
          then rev cur :: split_from sep (List.length sep - 1) [] s'
          else split_from sep 0 (c :: cur) s'
      end
  end.

Definition py_split (sep s : pystr) : list pystr := split_from sep 0 [] s.

(** [s.replace(old, new)] for a non-empty [old]: every occurrence, left to
    right, not overlapping. *)
Fixpoint replace_from (old new : pystr) (skip : nat) (s : pystr) : pystr :=
  match s with
  | [] => []
  | c :: s' =>
      match skip with
      | S k => replace_from old new k s'
      | O =>
          if starts_with old s
          then new ++ replace_from old new (List.length old - 1) s'
          else c :: replace_from old new 0 s'
      end
  end.

Definition py_replace (old new s : pystr) : pystr := replace_from old new 0 s.

(** The characters [str.strip()] removes: CPython's [Py_UNICODE_ISSPACE]. *)
Definition is_space (c : N) : bool :=
  ((9 <=? c) && (c <=? 13) || (28 <=? c) && (c <=? 32)
   || (c =? 0x85) || (c =? 0xA0) || (c =? 0x1680)
   || (0x2000 <=? c) && (c <=? 0x200A)
   || (c =? 0x2028) || (c =? 0x2029) || (c =? 0x202F)
   || (c =? 0x205F) || (c =? 0x3000))%N.

Fixpoint lstrip (s : pystr) : pystr :=
  match s with
  | c :: s' => if is_space c then lstrip s' else s
  | [] => []
  end.

Definition py_strip (s : pystr) : pystr := rev (lstrip (rev (lstrip s))).

(** [s.split(sep, 1)]: the text before and after the first [sep], when
    there is one. *)
Fixpoint split_once (sep : N) (s : pystr) : option (pystr * pystr) :=
  match s with
  | [] => None
  | c :: s' =>
      if N.eqb c sep then Some ([], s')
      else match split_once sep s' with
           | Some (a, b) => Some (c :: a, b)
           | None => None
           end
  end.

Fixpoint join (sep : pystr) (l : list pystr) : pystr :=
  match l with
  | [] => []
  | [x] => x
  | x :: r => x +++ sep +++ join sep r
  end.

Fixpoint uint_str (u : Decimal.uint) : pystr :=
  match u with
  | Decimal.Nil => []
  | Decimal.D0 r => 48%N :: uint_str r
  | Decimal.D1 r => 49%N :: uint_str r
  | Decimal.D2 r => 50%N :: uint_str r
  | Decimal.D3 r => 51%N :: uint_str r
  | Decimal.D4 r => 52%N :: uint_str r
  | Decimal.D5 r => 53%N :: uint_str r
  | Decimal.D6 r => 54%N :: uint_str r
  | Decimal.D7 r => 55%N :: uint_str r
  | Decimal.D8 r => 56%N :: uint_str r
  | Decimal.D9 r => 57%N :: uint_str r
  end.

(** [str(z)] for an [int]. *)
Definition int_str (z : Z) : pystr :=
  match Z.to_int z with
  | Decimal.Pos u => uint_str u
  | Decimal.Neg u => 45%N :: uint_str u
  end.

(** ** The two regular expressions of the module

    Both patterns are sequences of literal characters and lazy [.*?], one
    of them inside the capture group.  [rx_match] is [re]'s backtracking
    matcher on such a sequence: a lazy star first tries to match nothing
    and takes one more character (any but a newline) each time the rest
    of the pattern fails.  The result is the text of group 1. *)

Inductive rx_item : Type :=
| RChar (c : N)
| RLazyAny
| RGroupLazyAny.

Fixpoint rx_match (r : list rx_item) : pystr -> option pystr :=
  match r with
  | [] => fun _ => Some []
  | RChar c :: r' =>
      fun s =>
        match s with
        | x :: s' => if N.eqb x c then rx_match r' s' else None
        | [] => None
        end
  | RLazyAny :: r' =>
      fix lazy (s : pystr) : option pystr :=
        match rx_match r' s with
        | Some g => Some g
        | None =>
            match s with
            | x :: s' => if N.eqb x 10 then None else lazy s'
            | [] => None
            end
        end
  | RGroupLazyAny :: r' =>
      fix lazy (s : pystr) : option pystr :=
        match rx_match r' s with
        | Some _ => Some []
        | None =>
            match s with
            | x :: s' =>
                if N.eqb x 10 then None
                else match lazy s' with
                     | Some g => Some (x :: g)
                     | None => None
                     end
            | [] => None
            end
        end
  end.

(** [re.search]: the match at the leftmost position that has one. *)
Fixpoint rx_search (r : list rx_item) (s : pystr) : option pystr :=
  match rx_match r s with
  | Some g => Some g
  | None =>
      match s with
      | _ :: s' => rx_search r s'
      | [] => None
      end
  end.

Definition rx_chars (s : pystr) : list rx_item := List.map RChar s.

(** [r'\[.*?\]\((.*?)\)'] *)
Definition markdown_link_re : list rx_item :=
  rx_chars "[" ++ [RLazyAny] ++ rx_chars "](" ++ [RGroupLazyAny] ++ rx_chars ")".

(** [r'<a href="(.*?)">'] *)
Definition anchor_href_re : list rx_item :=
  rx_chars ("<a href=" +++ [34%N]) ++ [RGroupLazyAny] ++ rx_chars ([34%N] +++ ">").

(** ** JSON values and exceptions *)

#[local] Set Warnings "-register-all".

Inductive json : Type :=
| JNull
| JBool (b : bool)
| JInt (z : Z)
| JFloat (f : float)
| JStr (s : pystr)
| JList (l : list json)
| JObj (kvs : list (pystr * json)).

(** An entry [k: v] of a dict literal.  A dict is the list of its entries
    in insertion order; a lookup takes the first entry of a key. *)
Definition entry (k : pystr) (v : json) : pystr * json := (k, v).
Infix ":->" := entry (at level 55, no associativity).

Inductive exn : Type :=
| AttributeError
| TypeError
| ValueError
| IndexError
| UnicodeDecodeError
| JSONDecodeError
| OtherError.

Inductive result (A : Type) : Type :=
| Ok (a : A)
| Raise (e : exn).
Arguments Ok {A} a.
Arguments Raise {A} e.

Definition bind {A B : Type} (c : result A) (k : A -> result B) : result B :=
  match c with
  | Ok a => k a
  | Raise e => Raise e
  end.

Notation "x <- c ;; k" := (bind c (fun x => k))
  (at level 61, c at next level, right associativity).

Fixpoint assoc {V : Type} (k : pystr) (kvs : list (pystr * V)) : option V :=
  match kvs with
  | [] => None
  | (k', v) :: rest => if pystr_eqb k k' then Some v else assoc k rest
  end.

(** [d.get(k, dflt)]: only a dict has the method. *)
Definition py_get (d : json) (k : pystr) (dflt : json) : result json :=
  match d with
  | JObj kvs => Ok (match assoc k kvs with Some v => v | None => dflt end)
  | _ => Raise AttributeError
  end.

(** [bool(v)] *)
Definition py_truthy (v : json) : bool :=
  match v with
  | JNull => false
  | JBool b => b
  | JInt z => negb (z =? 0)%Z
  | JFloat f => negb (PrimFloat.eqb f 0%float)
  | JStr s => nonempty s
  | JList l => match l with [] => false | _ :: _ => true end
  | JObj kvs => match kvs with [] => false | _ :: _ => true end
  end.

(** [v == s] for a string literal [s]. *)
Definition json_eq_str (v : json) (s : pystr) : bool :=
  match v with
  | JStr s' => pystr_eqb s' s
  | _ => false
  end.

(** [tag in v] for a string [tag]: a substring test on a string, a
    membership test on a list and on the keys of a dict, a [TypeError] on
    anything else. *)
Definition py_in (tag : pystr) (v : json) : result bool :=
  match v with
  | JStr s => Ok (str_contains tag s)
  | JList l => Ok (existsb (fun x => json_eq_str x tag) l)
  | JObj kvs => Ok (existsb (fun kv => pystr_eqb (fst kv) tag) kvs)
  | _ => Raise TypeError
  end.

(** [re.search(pattern, v)] and group 1 of the match. *)
Definition re_search (r : list rx_item) (v : json) : result (option pystr) :=
  match v with
  | JStr s => Ok (rx_search r s)
  | _ => Raise TypeError
  end.

(** [v.replace(old, new)] *)
Definition str_replace (v : json) (old new : pystr) : result pystr :=
  match v with
  | JStr s => Ok (py_replace old new s)
  | _ => Raise AttributeError
  end.

(** [[part.strip() for part in v.split('\r\n') if part.strip()]] *)
Definition stripped_parts (v : json) : result (list pystr) :=
  match v with
  | JStr s =>
      Ok (List.filter nonempty (List.map py_strip (py_split [13%N; 10%N] s)))
  | _ => Raise AttributeError
  end.

(** ** The Python runtime *)

Inductive post_outcome : Type :=
| Responded (status : Z)
| RequestException
| OtherException.

Class PyRuntime : Type := {
  (** [repr] of a [str] and of a [float] *)
  str_repr : pystr -> pystr;
  float_repr : float -> pystr;
  (** [str.lower] *)
  str_lower : pystr -> pystr;
  (** [base64.b64decode] and [bytes.decode('utf-8')] *)
  b64decode : pystr -> result (list byte);
  utf8_decode : list byte -> result pystr;
  (** [json.loads], [json.dumps] *)
  json_loads : pystr -> result json;
  json_dumps : json -> pystr;
  json_loads_empty_object : json_loads "{}" = Ok (JObj []);
  (** [requests.post(url, json=payload, headers=..., timeout=10)] *)
  requests_post : pystr -> json -> post_outcome
}.

(** ** Configuration and requests

    The three module-level values read from the environment;
    [os.environ.get] gives [None] for a variable that is not set. *)
Record config : Type := {
  GOOGLE_CHAT_WEBHOOK_URL : option pystr;
  ADO_WEBHOOK_USER : option pystr;
  ADO_WEBHOOK_PASS : option pystr
}.

(** [bool(v)] for a value that is [None] or a string. *)
Definition env_set (v : option pystr) : bool :=
  match v with
  | Some s => nonempty s
  | None => false
  end.

(** The [event] the platform hands to [handler]: the method, the header
    dict (strings to strings) and the body, each of which may be missing;
    a body that is present is a string or [None]. *)
Record event : Type := {
  httpMethod : option pystr;
  headers : option (list (pystr * pystr));
  body : option (option pystr)
}.

(** The dict [handler] returns. *)
Record response : Type := {
  statusCode : Z;
  response_body : pystr
}.

Section Relay.
Context {rt : PyRuntime}.

(** ** [str(v)], as an f-string field formats a value *)

Fixpoint py_repr (v : json) : pystr :=
  match v with
  | JNull => "None"
  | JBool true => "True"
  | JBool false => "False"
  | JInt z => int_str z
  | JFloat f => float_repr f
  | JStr s => str_repr s
  | JList l => "[" +++ join ", " (List.map py_repr l) +++ "]"
  | JObj kvs =>
      "{" +++ join ", " (List.map (fun kv => str_repr (fst kv) +++ ": " +++ py_repr (snd kv)) kvs)
          +++ "}"
  end.

Definition py_str (v : json) : pystr :=
  match v with
  | JStr s => s
  | _ => py_repr v
  end.

(** ** Chat Notifier: [send_to_google_chat] *)

(** [response.raise_for_status()] raises for a 4xx or 5xx status. *)
Definition raises_for_status (status : Z) : bool :=
  ((400 <=? status) && (status <? 600))%Z.

Definition send_to_google_chat (cfg : config) (message_payload : json) : bool :=
  match GOOGLE_CHAT_WEBHOOK_URL cfg with
  | Some url =>
      if nonempty url then
        match requests_post url message_payload with
        | Responded status => negb (raises_for_status status)
        | RequestException => false
        | OtherException => false
        end
      else false
  | None => false
  end.

(** ** Event Formatter: [format_ado_event_card] *)

(** The message built at the end of either handled branch. *)
Definition chat_card (card_id : pystr) (card_header : json) (widgets : list json) : json :=
  JObj ["cardsV2" :->
          JList [JObj ["cardId" :-> JStr card_id;
                       "card" :-> JObj ["header" :-> card_header;
                                        "sections" :-> JList [JObj ["widgets" :-> JList widgets]]]]]].

Definition text_paragraph (text : pystr) : json :=
  JObj ["textParagraph" :-> JObj ["text" :-> JStr text]].

Definition decorated_text (top_label : pystr) (text : json) : json :=
  JObj ["decoratedText" :-> JObj ["topLabel" :-> JStr top_label; "text" :-> text]].

Definition link_button (text : pystr) (url : json) : json :=
  JObj ["buttonList" :->
          JObj ["buttons" :->
                  JList [JObj ["text" :-> JStr text;
                               "onClick" :-> JObj ["openLink" :-> JObj ["url" :-> url]]]]]].

(** Lines 55-57: the project name. *)
Definition resolve_project_name (payload resource_fields : json) : result json :=
  project_name <- py_get resource_fields "System.TeamProject" JNull ;;
  if py_truthy project_name then Ok project_name
  else
    containers <- py_get payload "resourceContainers" (JObj []) ;;
    project <- py_get containers "project" (JObj []) ;;
    py_get project "name" (JStr "Unknown Project").

(** Lines 72-78: the comment text. *)
Definition extract_comment_text (resource_fields detailed_message_data : json) : result json :=
  detailed_text <- py_get detailed_message_data "text" JNull ;;
  comment_text <-
    (if py_truthy detailed_text then
       parts <- stripped_parts detailed_text ;;
       Ok (JStr (List.last parts "No comment text found."))
     else Ok (JStr "No comment text found.")) ;;
  if json_eq_str comment_text "No comment text found."
  then py_get resource_fields "System.History" (JStr "Could not retrieve comment text.")
  else Ok comment_text.

(** Lines 80-91: the link to the work item. *)
Definition extract_work_item_link (message_data resource : json) : result json :=
  markdown_text <- py_get message_data "markdown" JNull ;;
  work_item_link <-
    (if py_truthy markdown_text then
       found <- re_search markdown_link_re markdown_text ;;
       Ok (match found with Some url => url | None => "#" end)
     else Ok (lit "#")) ;;
  work_item_link <-
    (if pystr_eqb work_item_link "#" then
       html_text <- py_get message_data "html" JNull ;;
       if py_truthy html_text then
         found <- re_search anchor_href_re html_text ;;
         Ok (match found with
             | Some url => py_replace "&amp;" "&" url
             | None => work_item_link
             end)
       else Ok work_item_link
     else Ok work_item_link) ;;
  if pystr_eqb work_item_link "#" then
    links <- py_get resource "_links" (JObj []) ;;
    html <- py_get links "html" (JObj []) ;;
    url <- py_get resource "url" (JStr "#") ;;
    py_get html "href" url
  else Ok (JStr work_item_link).

Definition tag_to_find : pystr := "@Francisco Aliss".

(** Lines 66-116: the [workitem.commented] branch. *)
Definition comment_card (resource resource_fields message_data detailed_message_data
                           project_name : json) : result (option json) :=
  wi_id <- py_get resource "id" (JStr "N/A") ;;
  wi_type <- py_get resource_fields "System.WorkItemType" (JStr "Work Item") ;;
  wi_title <- py_get resource_fields "System.Title" (JStr "N/A") ;;
  changed_by <- py_get resource_fields "System.ChangedBy" (JObj []) ;;
  commenter <- py_get changed_by "displayName" (JStr "Unknown User") ;;
  comment_text <- extract_comment_text resource_fields detailed_message_data ;;
  work_item_link <- extract_work_item_link message_data resource ;;
  tagged <- py_in tag_to_find comment_text ;;
  if tagged then
    let card_header :=
      JObj ["title" :-> JStr ("New Comment on " +++ py_str wi_type +++ " #" +++ py_str wi_id);
            "subtitle" :-> JStr (py_str wi_title +++ " | By: " +++ py_str commenter);
            "imageUrl" :-> JStr "https://img.icons8.com/color/48/000000/comments.png";
            "imageType" :-> JStr "CIRCLE"] in
    let widgets :=
      [text_paragraph ("<b>Project:</b> " +++ py_str project_name);
       text_paragraph ("<b>Comment:</b>" +++ [10%N] +++ py_str comment_text)]
      ++ (if negb (json_eq_str work_item_link "#")
          then [link_button "View Work Item" work_item_link]
          else []) in
    revision <- py_get resource "rev" (JStr "N/A") ;;
    let card_id := "comment-wi-" +++ py_str wi_id +++ "-rev-" +++ py_str revision in
    Ok (Some (chat_card card_id card_header widgets))
  else Ok None.

(** The arrow of the branch transition, U+2192. *)
Definition arrow : pystr := [8594%N].

(** Lines 119-150: the [git.pullrequest.created] branch. *)
Definition pullrequest_card (resource project_name : json) : result (option json) :=
  repo <- py_get resource "repository" (JObj []) ;;
  repo_name <- py_get repo "name" (JStr "N/A") ;;
  repo_project <- py_get repo "project" (JObj []) ;;
  project_name <- py_get repo_project "name" project_name ;;
  pr_id <- py_get resource "pullRequestId" (JStr "N/A") ;;
  pr_title <- py_get resource "title" (JStr "N/A") ;;
  created_by <- py_get resource "createdBy" (JObj []) ;;
  creator <- py_get created_by "displayName" (JStr "N/A") ;;
  source_ref <- py_get resource "sourceRefName" (JStr "N/A") ;;
  source_branch <- str_replace source_ref "refs/heads/" "" ;;
  target_ref <- py_get resource "targetRefName" (JStr "N/A") ;;
  target_branch <- str_replace target_ref "refs/heads/" "" ;;
  links <- py_get resource "_links" (JObj []) ;;
  web <- py_get links "web" (JObj []) ;;
  pr_url <- py_get web "href" (JStr "#") ;;
  pr_url <- (if json_eq_str pr_url "#" then py_get resource "url" (JStr "#") else Ok pr_url) ;;
  let card_header :=
    JObj ["title" :-> JStr ("Pull Request #" +++ py_str pr_id +++ " Created");
          "subtitle" :-> JStr ("Repo: " +++ py_str repo_name +++ " | Project: " +++ py_str project_name);
          "imageUrl" :-> JStr "https://img.icons8.com/fluent/48/000000/pull-request.png";
          "imageType" :-> JStr "CIRCLE"] in
  let widgets :=
    [decorated_text "Title" pr_title;
     decorated_text "Created By" creator;
     decorated_text "Branches" (JStr (source_branch +++ " " +++ arrow +++ " " +++ target_branch))]
    ++ (if negb (json_eq_str pr_url "#")
        then [link_button "View Pull Request" pr_url]
        else []) in
  let card_id := "pr-" +++ py_str pr_id in
  Ok (Some (chat_card card_id card_header widgets)).

Definition format_ado_event_card (payload : json) : result (option json) :=
  event_type <- py_get payload "eventType" (JStr "unknown") ;;
  message_data <- py_get payload "message" (JObj []) ;;
  detailed_message_data <- py_get payload "detailedMessage" (JObj []) ;;
  resource <- py_get payload "resource" (JObj []) ;;
  resource_fields <- py_get resource "fields" (JObj []) ;;
  project_name <- resolve_project_name payload resource_fields ;;
  default_id <- py_get payload "id" (JStr "default") ;;
  let card_id := "ado-event-" +++ py_str default_id in
  if json_eq_str event_type "workitem.commented" then
    comment_card resource resource_fields message_data detailed_message_data project_name
  else if json_eq_str event_type "git.pullrequest.created" then
    pullrequest_card resource project_name
  else Ok None.

(** ** Request Authenticator and [handler] *)

Definition json_response (code : Z) (status message : pystr) : response :=
  {| statusCode := code;
     response_body := json_dumps (JObj ["status" :-> JStr status; "message" :-> JStr message]) |}.

(** The body of the [try] of lines 179-190: the user name and password the
    header carries. *)
Definition decode_credentials (auth_header : pystr) : result (pystr * pystr) :=
  encoded_credentials <-
    match split_once 32 auth_header with
    | Some (_, rest) => Ok rest
    | None => Raise IndexError
    end ;;
  raw <- b64decode encoded_credentials ;;
  decoded_credentials <- utf8_decode raw ;;
  match split_once 58 decoded_credentials with
  | Some (username, password) => Ok (username, password)
  | None => Raise ValueError
  end.

Definition auth_header (ev : event) : option pystr :=
  match headers ev with
  | Some hs => assoc "authorization" hs
  | None => None
  end.

(** Lines 174-195: the value of [auth_passed]. *)
Definition auth_passed (cfg : config) (ev : event) : bool :=
  if env_set (ADO_WEBHOOK_USER cfg) && env_set (ADO_WEBHOOK_PASS cfg) then
    match auth_header ev with
    | Some header =>
        if nonempty header && starts_with "basic " (str_lower header) then
          match decode_credentials header with
          | Ok (username, password) =>
              match ADO_WEBHOOK_USER cfg, ADO_WEBHOOK_PASS cfg with
              | Some user, Some pass => pystr_eqb username user && pystr_eqb password pass
              | _, _ => false
              end
          | Raise _ => false
          end
        else false
    | None => false
    end
  else false.

(** [json.loads(event.get('body', '{}'))] *)
Definition load_payload (ev : event) : result json :=
  match body ev with
  | None => json_loads "{}"
  | Some (Some payload_string) => json_loads payload_string
  | Some None => Raise TypeError
  end.

Definition internal_error : response :=
  json_response 500 "error" "Internal Server Error processing webhook".

(** Lines 203-232. *)
Definition process_payload (cfg : config) (ev : event) : response :=
  match load_payload ev with
  | Raise JSONDecodeError => json_response 400 "error" "Invalid JSON payload"
  | Raise _ => internal_error
  | Ok payload =>
      match py_get payload "eventType" (JStr "unknown") with
      | Raise _ => internal_error
      | Ok _ =>
          if negb (env_set (GOOGLE_CHAT_WEBHOOK_URL cfg)) then
            json_response 500 "error" "Webhook processor configuration error"
          else
            match format_ado_event_card payload with
            | Raise _ => internal_error
            | Ok chat_payload =>
                if match chat_payload with Some m => py_truthy m | None => false end then
                  if send_to_google_chat cfg
                       (match chat_payload with Some m => m | None => JNull end)
                  then json_response 200 "success" "Webhook received and notification sent"
                  else json_response 500 "error"
                         "Webhook received but failed to send notification to Google Chat"
                else json_response 200 "success" "Webhook received, no notification required"
            end
      end
  end.

Definition is_post (ev : event) : bool :=
  match httpMethod ev with
  | Some m => pystr_eqb m "POST"
  | None => false
  end.

Definition handler (cfg : config) (ev : event) : response :=
  if negb (is_post ev) then json_response 405 "error" "Method Not Allowed"
  else if negb (auth_passed cfg ev) then json_response 401 "error" "Authentication Required"
  else process_payload cfg ev.

End Relay.

(** ** The outbound requests

    The same two functions with the calls of [requests.post] made
    explicit: each returns its value together with the requests it
    attempted, as pairs of the URL and the JSON body, in order. *)
Section RelayEffects.
Context {rt : PyRuntime}.

Definition send_to_google_chat_io (cfg : config) (message_payload : json)
  : bool * list (pystr * json) :=
  match GOOGLE_CHAT_WEBHOOK_URL cfg with
  | Some url =>
      if nonempty url then
        (match requests_post url message_payload with
         | Responded status => negb (raises_for_status status)
         | RequestException => false
         | OtherException => false
         end,
         [(url, message_payload)])
      else (false, [])
  | None => (false, [])
  end.

Definition process_payload_io (cfg : config) (ev : event) : response * list (pystr * json) :=
  match load_payload ev with
  | Raise JSONDecodeError => (json_response 400 "error" "Invalid JSON payload", [])
  | Raise _ => (internal_error, [])
  | Ok payload =>
      match py_get payload "eventType" (JStr "unknown") with
      | Raise _ => (internal_error, [])
      | Ok _ =>
          if negb (env_set (GOOGLE_CHAT_WEBHOOK_URL cfg)) then
            (json_response 500 "error" "Webhook processor configuration error", [])
          else
            match format_ado_event_card payload with
            | Raise _ => (internal_error, [])
            | Ok chat_payload =>
                if match chat_payload with Some m => py_truthy m | None => false end then
                  let (send_success, posts) :=
                    send_to_google_chat_io cfg
                      (match chat_payload with Some m => m | None => JNull end) in
                  (if send_success
                   then json_response 200 "success" "Webhook received and notification sent"
                   else json_response 500 "error"
                          "Webhook received but failed to send notification to Google Chat",
                   posts)
                else (json_response 200 "success" "Webhook received, no notification required",
                      [])
            end
      end
  end.

Definition handler_io (cfg : config) (ev : event) : response * list (pystr * json) :=
  if negb (is_post ev) then (json_response 405 "error" "Method Not Allowed", [])
  else if negb (auth_passed cfg ev)
       then (json_response 401 "error" "Authentication Required", [])
       else process_payload_io cfg ev.

End RelayEffects.

(** ** A runtime to evaluate the code on concrete requests

    The fragment of the library functions that the sample requests below
    exercise: ASCII case folding, base64 over the standard alphabet with
    padding, decoding of ASCII bytes, serialisation of strings that need
    no escape, and a chat endpoint [post] chosen by the example. *)
Module Sample.

Definition quoted (q : N) (s : pystr) : pystr := [q] +++ s +++ [q].

Definition lower_char (c : N) : N :=
  if ((65 <=? c) && (c <=? 90))%N then (c + 32)%N else c.

Definition b64_digit (c : N) : option N :=
  (if (65 <=? c) && (c <=? 90) then Some (c - 65)
   else if (97 <=? c) && (c <=? 122) then Some (c - 71)
   else if (48 <=? c) && (c <=? 57) then Some (c + 4)
   else if c =? 43 then Some 62
   else if c =? 47 then Some 63
   else None)%N.

Definition byte_of (n : N) : byte :=
  match Byte.of_N (n mod 256) with
  | Some b => b
  | None => x00
  end.

Fixpoint b64_quads (s : pystr) : result (list byte) :=
  match s with
  | [] => Ok []
  | a :: b :: c :: d :: rest =>
      match b64_digit a, b64_digit b with
      | Some x, Some y =>
          if ((c =? 61) && (d =? 61))%N then
            match rest with
            | [] => Ok [byte_of (x * 4 + y / 16)]
            | _ :: _ => Raise ValueError
            end
          else
            match b64_digit c with
            | Some z =>
                if (d =? 61)%N then
                  match rest with
                  | [] => Ok [byte_of (x * 4 + y / 16); byte_of (y * 16 + z / 4)]
                  | _ :: _ => Raise ValueError
                  end
                else
                  match b64_digit d with
                  | Some w =>
                      tail <- b64_quads rest ;;
                      Ok (byte_of (x * 4 + y / 16) :: byte_of (y * 16 + z / 4)
                            :: byte_of (z * 64 + w) :: tail)
                  | None => Raise ValueError
                  end
            | None => Raise ValueError
            end
      | _, _ => Raise ValueError
      end
  | _ => Raise ValueError
  end.

Fixpoint ascii_decode (bs : list byte) : result pystr :=
  match bs with
  | [] => Ok []
  | b :: bs' =>
      if (Byte.to_N b <? 128)%N
      then s <- ascii_decode bs' ;; Ok (Byte.to_N b :: s)
      else Raise UnicodeDecodeError
  end.

Fixpoint dumps (v : json) : pystr :=
  match v with
  | JNull => "null"
  | JBool true => "true"
  | JBool false => "false"
  | JInt z => int_str z
  | JFloat _ => "0.0"
  | JStr s => quoted 34 s
  | JList l => "[" +++ join ", " (List.map dumps l) +++ "]"
  | JObj kvs =>
      "{" +++ join ", " (List.map (fun kv => quoted 34 (fst kv) +++ ": " +++ dumps (snd kv)) kvs)
          +++ "}"
  end.

(** A pull request event and a comment event, as Azure DevOps sends them. *)
Definition pr_event : json :=
  JObj ["eventType" :-> JStr "git.pullrequest.created";
        "resource" :->
          JObj ["repository" :-> JObj ["name" :-> JStr "relay";
                                       "project" :-> JObj ["name" :-> JStr "Platform"]];
                "pullRequestId" :-> JInt 42;
                "title" :-> JStr "Add retry";
                "createdBy" :-> JObj ["displayName" :-> JStr "Ada"];
                "sourceRefName" :-> JStr "refs/heads/feature/retry";
                "targetRefName" :-> JStr "refs/heads/main";
                "url" :-> JStr "https://dev.example/pr/42"]].

Definition comment_event (text : pystr) : json :=
  JObj ["eventType" :-> JStr "workitem.commented";
        "detailedMessage" :-> JObj ["text" :-> JStr text];
        "resource" :->
          JObj ["id" :-> JInt 7; "rev" :-> JInt 3;
                "fields" :-> JObj ["System.TeamProject" :-> JStr "Platform";
                                   "System.Title" :-> JStr "Crash on start";
                                   "System.ChangedBy" :-> JObj ["displayName" :-> JStr "Ada"]]]].

(** A comment event whose links are given by the two message fields. *)
Definition linked_comment_event (markdown html : pystr) : json :=
  JObj ["eventType" :-> JStr "workitem.commented";
        "message" :-> JObj ["markdown" :-> JStr markdown; "html" :-> JStr html];
        "detailedMessage" :-> JObj ["text" :-> JStr "Please review @Francisco Aliss"];
        "resource" :-> JObj ["id" :-> JInt 7; "url" :-> JStr "https://dev.example/wi/7"]].

Definition anchor (url : pystr) : pystr :=
  "<a href=" +++ quoted 34 url +++ ">Bug 7</a>".

(** A comment event with the given detailed text and history. *)
Definition history_comment_event (text history : pystr) : json :=
  JObj ["eventType" :-> JStr "workitem.commented";
        "detailedMessage" :-> JObj ["text" :-> JStr text];
        "resource" :-> JObj ["id" :-> JInt 7;
                             "fields" :-> JObj ["System.History" :-> JStr history]]].

(** A comment event of resource version 1.0, where [System.ChangedBy] is
    the name itself. *)
Definition legacy_comment_event : json :=
  JObj ["eventType" :-> JStr "workitem.commented";
        "resource" :->
          JObj ["id" :-> JInt 5;
                "fields" :-> JObj ["System.ChangedBy" :-> JStr "Jamal Hartnett";
                                   "System.History" :-> JStr "This is a great new idea"]]].

(** A pull request between the given refs. *)
Definition branch_event (source target : pystr) : json :=
  JObj ["eventType" :-> JStr "git.pullrequest.created";
        "resource" :-> JObj ["pullRequestId" :-> JInt 1;
                             "sourceRefName" :-> JStr source;
                             "targetRefName" :-> JStr target]].

Definition unknown_event : json := JObj ["eventType" :-> JStr "build.complete"].

Definition documents : list json :=
  [JObj []; JList []; pr_event; unknown_event;
   comment_event "Please review @Francisco Aliss"; comment_event "Please review"].

(** [json.loads] on the texts [dumps] gives for [documents]. *)
Fixpoint loads_among (docs : list json) (s : pystr) : result json :=
  match docs with
  | [] => Raise JSONDecodeError
  | d :: docs' => if pystr_eqb s (dumps d) then Ok d else loads_among docs' s
  end.

Definition runtime (post : pystr -> json -> post_outcome) : PyRuntime :=
  {| str_repr := quoted 39;
     float_repr := fun _ => "0.0";
     str_lower := List.map lower_char;
     b64decode := b64_quads;
     utf8_decode := ascii_decode;
     json_loads := loads_among documents;
     json_dumps := dumps;
     json_loads_empty_object := eq_refl;
     requests_post := post |}.

(** A chat endpoint that accepts every message, and one that is down. *)
Definition chat_up : PyRuntime := runtime (fun _ _ => Responded 200).
Definition chat_down : PyRuntime := runtime (fun _ _ => Responded 503).

Definition configured : config :=
  {| GOOGLE_CHAT_WEBHOOK_URL := Some (lit "https://chat.example/hook");
     ADO_WEBHOOK_USER := Some (lit "user");
     ADO_WEBHOOK_PASS := Some (lit "pass") |}.

Definition without_chat_url : config :=
  {| GOOGLE_CHAT_WEBHOOK_URL := None;
     ADO_WEBHOOK_USER := Some (lit "user");
     ADO_WEBHOOK_PASS := Some (lit "pass") |}.

(** A POST that carries [user:pass] and the given body. *)
Definition post_with (b : option (option pystr)) : event :=
  {| httpMethod := Some (lit "POST");
     headers := Some [("authorization" : pystr, "Basic dXNlcjpwYXNz" : pystr)];
     body := b |}.

End Sample.

(** The same runtime with a [json.loads] that also knows the comment
    event of resource version 1.0 and an event with a detailed text of
    several lines. *)
Module Legacy.

Definition two_line_event : json :=
  Sample.comment_event ("@Francisco Aliss please look" +++ [13%N; 10%N] +++ "  thanks  ").

Definition documents : list json :=
  Sample.legacy_comment_event :: two_line_event :: Sample.documents.

Definition runtime (post : pystr -> json -> post_outcome) : PyRuntime :=
  {| str_repr := Sample.quoted 39;
     float_repr := fun _ => "0.0";
     str_lower := List.map Sample.lower_char;
     b64decode := Sample.b64_quads;
     utf8_decode := Sample.ascii_decode;
     json_loads := Sample.loads_among documents;
     json_dumps := Sample.dumps;
     json_loads_empty_object := eq_refl;
     requests_post := post |}.

Definition chat_up : PyRuntime := runtime (fun _ _ => Responded 200).

End Legacy.

(** Comment events whose fields do not have the expected types: one of
    resource version 1.0 whose history carries the mention, and two
    whose history is a list of notes. *)
Module Untyped.

Definition legacy_mention_event : json :=
  JObj ["eventType" :-> JStr "workitem.commented";
        "resource" :->
          JObj ["id" :-> JInt 5;
                "fields" :-> JObj ["System.ChangedBy" :-> JStr "Jamal Hartnett";
                                   "System.History" :->
                                     JStr "Please review @Francisco Aliss"]]].

Definition history_list_event (notes : list json) : json :=
  JObj ["eventType" :-> JStr "workitem.commented";
        "resource" :-> JObj ["id" :-> JInt 5;
                             "fields" :-> JObj ["System.History" :-> JList notes]]].

End Untyped.

(** ** Vocabulary of the specification *)

Definition is_dict (v : json) : bool :=
  match v with JObj _ => true | _ => false end.

Definition is_str (v : json) : bool :=
  match v with JStr _ => true | _ => false end.

Definition str_or_falsy (v : json) : bool := is_str v || negb (py_truthy v).

(** The field [k] of [d], [dflt] when [d] has none. *)
Definition field (d : json) (k : pystr) (dflt : json) : json :=
  match py_get d k dflt with
  | Ok v => v
  | Raise _ => dflt
  end.

Definition event_type (payload : json) : json :=
  field payload "eventType" (JStr "unknown").

(** The shape of the fields the formatter reads for every event: the
    payload, its resource and the resource's fields are objects, and so
    are the containers that hold the fallback project name. *)
Definition common_shape (payload : json) : bool :=
  let resource := field payload "resource" (JObj []) in
  let containers := field payload "resourceContainers" (JObj []) in
  is_dict payload && is_dict resource && is_dict (field resource "fields" (JObj []))
  && is_dict containers && is_dict (field containers "project" (JObj [])).

(** The fields read for a [workitem.commented] event. *)
Definition comment_shape (payload : json) : bool :=
  let resource := field payload "resource" (JObj []) in
  let resource_fields := field resource "fields" (JObj []) in
  let message_data := field payload "message" (JObj []) in
  let detailed_message_data := field payload "detailedMessage" (JObj []) in
  let links := field resource "_links" (JObj []) in
  is_dict message_data && is_dict detailed_message_data
  && is_dict (field resource_fields "System.ChangedBy" (JObj []))
  && str_or_falsy (field detailed_message_data "text" JNull)
  && is_str (field resource_fields "System.History" (JStr "Could not retrieve comment text."))
  && str_or_falsy (field message_data "markdown" JNull)
  && str_or_falsy (field message_data "html" JNull)
  && is_dict links && is_dict (field links "html" (JObj [])).

(** The fields read for a [git.pullrequest.created] event. *)
Definition pullrequest_shape (payload : json) : bool :=
  let resource := field payload "resource" (JObj []) in
  let links := field resource "_links" (JObj []) in
  let repo := field resource "repository" (JObj []) in
  is_dict repo && is_dict (field repo "project" (JObj []))
  && is_dict (field resource "createdBy" (JObj []))
  && is_str (field resource "sourceRefName" (JStr "N/A"))
  && is_str (field resource "targetRefName" (JStr "N/A"))
  && is_dict links && is_dict (field links "web" (JObj [])).

(** An Inbound Event of the data model: a JSON object in which every
    field the formatter reads for its event type is missing or has the
    type Azure DevOps gives it (containers are objects, texts are
    strings). *)
Definition inbound_event (payload : json) : bool :=
  common_shape payload
  && (if json_eq_str (event_type payload) "workitem.commented" then comment_shape payload
      else if json_eq_str (event_type payload) "git.pullrequest.created"
           then pullrequest_shape payload
           else true).

(** Navigation in a Chat Message. *)
Definition member (v : json) (k : pystr) : option json :=
  match v with
  | JObj kvs => assoc k kvs
  | _ => None
  end.

Definition then_member (o : option json) (k : pystr) : option json :=
  match o with
  | Some v => member v k
  | None => None
  end.

Definition first_item (o : option json) : option json :=
  match o with
  | Some (JList (x :: _)) => Some x
  | _ => None
  end.

Definition message_card (m : json) : option json :=
  then_member (first_item (member m "cardsV2")) "card".

Definition message_header (m : json) : option json :=
  then_member (message_card m) "header".

Definition message_widgets (m : json) : list json :=
  match then_member (first_item (then_member (message_card m) "sections")) "widgets" with
  | Some (JList ws) => ws
  | _ => []
  end.

Definition is_text (o : option json) : bool :=
  match o with
  | Some (JStr _) => true
  | _ => false
  end.

(** A well-formed Chat Message: a card with an identifier, a header with
    title, subtitle and icon, and at least one widget. *)
Definition well_formed_message (m : json) : bool :=
  is_text (then_member (first_item (member m "cardsV2")) "cardId")
  && is_text (then_member (message_header m) "title")
  && is_text (then_member (message_header m) "subtitle")
  && is_text (then_member (message_header m) "imageUrl")
  && match message_widgets m with [] => false | _ :: _ => true end.

(** The text of the labelled widget [label]. *)
Fixpoint labelled_text (label : pystr) (widgets : list json) : option json :=
  match widgets with
  | [] => None
  | w :: ws =>
      match member w "decoratedText" with
      | Some d =>
          if match member d "topLabel" with
             | Some l => json_eq_str l label
             | None => false
             end
          then member d "text"
          else labelled_text label ws
      | None => labelled_text label ws
      end
  end.

(** The comment text and the work item link [format_ado_event_card]
    extracts from a payload. *)
Definition comment_text_of (payload : json) : result json :=
  detailed_message_data <- py_get payload "detailedMessage" (JObj []) ;;
  resource <- py_get payload "resource" (JObj []) ;;
  resource_fields <- py_get resource "fields" (JObj []) ;;
  extract_comment_text resource_fields detailed_message_data.

Definition work_item_link_of (payload : json) : result json :=
  message_data <- py_get payload "message" (JObj []) ;;
  resource <- py_get payload "resource" (JObj []) ;;
  extract_work_item_link message_data resource.

(** The three sources of a work item link, as the specification names
    them. *)
Definition markdown_link (message_data : json) : option pystr :=
  match field message_data "markdown" JNull with
  | JStr s => rx_search markdown_link_re s
  | _ => None
  end.

Definition html_link (message_data : json) : option pystr :=
  match field message_data "html" JNull with
  | JStr s => option_map (py_replace "&amp;" "&") (rx_search anchor_href_re s)
  | _ => None
  end.

Definition direct_link (resource : json) : json :=
  field (field (field resource "_links" (JObj [])) "html" (JObj [])) "href"
        (field resource "url" (JStr "#")).

(** The specification's order of precedence: the first source that
    yields a link. *)
Definition link_by_precedence (message_data resource : json) : json :=
  match markdown_link message_data with
  | Some url => JStr url
  | None =>
      match html_link message_data with
      | Some url => JStr url
      | None => direct_link resource
      end
  end.

(** A link other than the placeholder ["#"]. *)
Definition real_link (o : option pystr) : option pystr :=
  match o with
  | Some url => if pystr_eqb url "#" then None else Some url
  | None => None
  end.

(** The order of precedence among real links. *)
Definition real_link_by_precedence (message_data resource : json) : json :=
  match real_link (markdown_link message_data) with
  | Some url => JStr url
  | None =>
      match real_link (html_link message_data) with
      | Some url => JStr url
      | None => direct_link resource
      end
  end.

(** The specification's comment text: the last non-empty segment of the
    detailed text, else the history field, else a placeholder. *)
Definition comment_text_spec (resource_fields detailed_message_data : json) : json :=
  match field detailed_message_data "text" JNull with
  | JStr s =>
      match List.rev (List.filter nonempty (List.map py_strip (py_split [13%N; 10%N] s))) with
      | segment :: _ => JStr segment
      | [] => field resource_fields "System.History" (JStr "Could not retrieve comment text.")
      end
  | _ => field resource_fields "System.History" (JStr "Could not retrieve comment text.")
  end.

(** The specification's branch name: the ref name without its prefix. *)
Definition strip_prefix (prefix s : pystr) : pystr :=
  if starts_with prefix s then List.skipn (List.length prefix) s else s.

(** The link of the first button among the widgets. *)
Fixpoint button_url (widgets : list json) : option json :=
  match widgets with
  | [] => None
  | w :: ws =>
      match first_item (then_member (member w "buttonList") "buttons") with
      | Some b => then_member (then_member (member b "onClick") "openLink") "url"
      | None => button_url ws
      end
  end.

(** The header carries Basic credentials for [user] and [pass]: a scheme
    that reads [basic] in any case, a space, and the base64 text of
    [user:pass], the user name being what precedes the first colon. *)
Definition carries_credentials {rt : PyRuntime} (header user pass : pystr) : Prop :=
  exists scheme encoded raw,
    header = scheme ++ 32%N :: encoded /\ ~ In 32%N scheme
    /\ starts_with "basic " (str_lower header) = true
    /\ b64decode encoded = Ok raw
    /\ utf8_decode raw = Ok (user ++ 58%N :: pass) /\ ~ In 58%N user.


(** The project name of lines 55-57, by fields: the team project of the
    resource unless it is falsy, else the name of the project container,
    else a placeholder. *)
Definition project_name_of (payload : json) : json :=
  let team_project :=
    field (field (field payload "resource" (JObj [])) "fields" (JObj []))
          "System.TeamProject" JNull in
  if py_truthy team_project then team_project
  else field (field (field payload "resourceContainers" (JObj [])) "project" (JObj []))
             "name" (JStr "Unknown Project").

(** The link of a pull request, lines 130-131. *)
Definition pullrequest_link (resource : json) : json :=
  let href := field (field (field resource "_links" (JObj [])) "web" (JObj [])) "href"
                    (JStr "#") in
  if json_eq_str href "#" then field resource "url" (JStr "#") else href.

(** The non-empty trimmed segments of a detailed text, line 75. *)
Definition segments (s : pystr) : list pystr :=
  List.filter nonempty (List.map py_strip (py_split [13%N; 10%N] s)).

(** * Verification *)

(** ** Strings *)

Lemma pystr_eqb_eq (a b : pystr) : pystr_eqb a b = true <-> a = b.
Proof.
  revert b; induction a as [|x a IH]; intros [|y b]; simpl; split;
    try congruence; try discriminate.
  - intros H. apply andb_true_iff in H as [Hx Hab].
    apply N.eqb_eq in Hx. apply IH in Hab. congruence.
  - intros H. injection H as -> ->.
    rewrite N.eqb_refl. simpl. now apply IH.
Qed.

Lemma pystr_eqb_refl (a : pystr) : pystr_eqb a a = true.
Proof. now apply pystr_eqb_eq. Qed.

Lemma pystr_eqb_neq (a b : pystr) : pystr_eqb a b = false <-> a <> b.
Proof.
  split.
  - intros H E. apply pystr_eqb_eq in E. congruence.
  - intros H. destruct (pystr_eqb a b) eqn:E; trivial.
    apply pystr_eqb_eq in E. contradiction.
Qed.

Lemma starts_with_prefix (p s : pystr) :
  starts_with p s = true <-> exists t, s = p ++ t.
Proof.
  revert s; induction p as [|x p IH]; intros s; simpl.
  - split; eauto.
  - destruct s as [|y s]; split.
    + discriminate.
    + intros [t H]. discriminate.
    + intros H. apply andb_true_iff in H as [Hx Hp].
      apply N.eqb_eq in Hx. apply IH in Hp as [t ->]. subst. eauto.
    + intros [t H]. injection H as -> ->.
      rewrite N.eqb_refl. simpl. apply IH. eauto.
Qed.

(** [needle in hay] holds exactly when [hay] is some text, then [needle]
    character for character, then some text. *)
Lemma str_contains_substring (needle hay : pystr) :
  str_contains needle hay = true <-> exists pre post, hay = pre ++ needle ++ post.
Proof.
  induction hay as [|c hay IH]; simpl.
  - rewrite orb_false_r. split.
    + intros H. apply starts_with_prefix in H as [t H]. exists [], t. exact H.
    + intros (pre & post & H). destruct pre as [|x pre]; [|discriminate].
      apply starts_with_prefix. eauto.
  - split.
    + intros H. apply orb_true_iff in H as [H|H].
      * apply starts_with_prefix in H as [t H]. exists [], t. exact H.
      * apply IH in H as (pre & post & ->). exists (c :: pre), post. reflexivity.
    + intros (pre & post & H). apply orb_true_iff.
      destruct pre as [|x pre].
      * left. apply starts_with_prefix. eauto.
      * right. injection H as -> ->. apply IH. eauto.
Qed.

Lemma split_once_app (sep : N) (a b : pystr) :
  ~ In sep a -> split_once sep (a ++ sep :: b) = Some (a, b).
Proof.
  induction a as [|x a IH]; simpl; intros Hn.
  - now rewrite N.eqb_refl.
  - destruct (N.eqb x sep) eqn:E.
    + apply N.eqb_eq in E. exfalso. apply Hn. now left.
    + rewrite IH; [reflexivity|]. intros Hin. apply Hn. now right.
Qed.

Lemma split_once_first (sep : N) (s a b : pystr) :
  split_once sep s = Some (a, b) <-> s = a ++ sep :: b /\ ~ In sep a.
Proof.
  split.
  - revert a b; induction s as [|c s IH]; intros a b; simpl; [discriminate|].
    destruct (N.eqb c sep) eqn:E.
    + apply N.eqb_eq in E. subst c.
      intros H. injection H as <- <-. split; [reflexivity | intros []].
    + apply N.eqb_neq in E.
      destruct (split_once sep s) as [[a' b']|]; [|discriminate].
      intros H. injection H as <- <-.
      destruct (IH a' b' eq_refl) as [-> Hn]. split; [reflexivity|].
      intros [H|H]; [congruence | contradiction].
  - intros [-> Hn]. now apply split_once_app.
Qed.

(** ** The error monad and dict access *)

Lemma bind_ok {A B : Type} (c : result A) (k : A -> result B) (r : B) :
  bind c k = Ok r -> exists a, c = Ok a /\ k a = Ok r.
Proof. destruct c as [a|e]; simpl; [eauto | discriminate]. Qed.

Lemma py_get_field (d : json) (k : pystr) (dflt : json) :
  is_dict d = true -> py_get d k dflt = Ok (field d k dflt).
Proof. destruct d; try discriminate. reflexivity. Qed.

Lemma py_get_ok_dict (d : json) (k : pystr) (dflt v : json) :
  py_get d k dflt = Ok v -> is_dict d = true /\ v = field d k dflt.
Proof.
  destruct d; try discriminate. unfold field. simpl.
  intros H. injection H as <-. auto.
Qed.

(** Inversion of a computation that returned: every [bind] of [H] is
    split into the step that returned and the rest. *)
Ltac bind_inv H :=
  repeat
    match type of H with
    | bind _ _ = Ok _ =>
        let a := fresh "v" in
        let E := fresh "E" in
        apply bind_ok in H; destruct H as (a & E & H)
    | (if ?b then _ else _) = Ok _ => destruct b eqn:?
    | Raise _ = Ok _ => discriminate H
    | _ => progress cbv zeta in H
    end.

(** ** Event Formatter *)

Lemma truthy_is_str (v : json) :
  str_or_falsy v = true -> py_truthy v = true -> exists s, v = JStr s.
Proof.
  unfold str_or_falsy. intros H T. rewrite T in H. simpl in H.
  rewrite orb_false_r in H. destruct v; try discriminate. eauto.
Qed.

(** Neither pattern matches in a value that is not a non-empty string. *)
Lemma falsy_not_str_link (v : json) :
  str_or_falsy v = true -> py_truthy v = false ->
  match v with JStr s => rx_search markdown_link_re s | _ => None end = None
  /\ match v with JStr s => rx_search anchor_href_re s | _ => None end = None.
Proof.
  destruct v; auto. simpl. destruct s; [auto | discriminate].
Qed.

Lemma last_rev_head (l : list pystr) (d : pystr) :
  List.last l d = match List.rev l with x :: _ => x | [] => d end.
Proof.
  destruct (List.rev l) as [|x r] eqn:E.
  - apply (f_equal (@List.rev pystr)) in E. rewrite rev_involutive in E. now subst.
  - apply (f_equal (@List.rev pystr)) in E. rewrite rev_involutive in E. subst.
    simpl. apply last_last.
Qed.

(** Lines 80-91 compute the order of precedence among real links. *)
Lemma extract_work_item_link_real (message resource : json) :
  is_dict message = true ->
  str_or_falsy (field message "markdown" JNull) = true ->
  str_or_falsy (field message "html" JNull) = true ->
  is_dict resource = true ->
  is_dict (field resource "_links" (JObj [])) = true ->
  is_dict (field (field resource "_links" (JObj [])) "html" (JObj [])) = true ->
  extract_work_item_link message resource = Ok (real_link_by_precedence message resource).
Proof.
  intros Hm Hmd Hh Hr Hl Hlh.
  unfold extract_work_item_link, real_link_by_precedence, markdown_link, html_link, direct_link.
  rewrite !(py_get_field message) by assumption.
  rewrite !(py_get_field resource) by assumption.
  cbn [bind]. rewrite py_get_field by assumption. cbn [bind].
  rewrite py_get_field by assumption.
  set (md := field message "markdown" JNull) in *.
  set (ht := field message "html" JNull) in *.
  set (direct := field _ "href" _).
  match goal with |- bind ?c ?k = _ => set (rest := k) end.
  assert (Hreal : forall u, pystr_eqb u "#" = false -> rest u = Ok (JStr u)).
  { intros u Hu. unfold rest. rewrite Hu. cbn [bind]. now rewrite Hu. }
  assert (Hhash : rest "#" =
                  Ok match real_link match ht with
                                     | JStr s => option_map (py_replace "&amp;" "&")
                                                   (rx_search anchor_href_re s)
                                     | _ => None
                                     end with
                     | Some url => JStr url
                     | None => direct
                     end).
  { unfold rest. change (pystr_eqb "#" "#") with true. cbv iota.
    destruct (py_truthy ht) eqn:T.
    - destruct (truthy_is_str ht Hh T) as [s ->]. cbn [re_search bind].
      destruct (rx_search anchor_href_re s) as [u|]; cbn [option_map real_link bind].
      + destruct (pystr_eqb (py_replace "&amp;" "&" u) "#"); reflexivity.
      + reflexivity.
    - destruct (falsy_not_str_link ht Hh T) as [_ E].
      cbn [bind]. change (pystr_eqb "#" "#") with true. cbv iota.
      destruct ht; try reflexivity. rewrite E. reflexivity. }
  destruct (py_truthy md) eqn:T.
  - destruct (truthy_is_str md Hmd T) as [s ->]. cbn [re_search bind].
    destruct (rx_search markdown_link_re s) as [u|]; cbn [real_link bind].
    + destruct (pystr_eqb u "#") eqn:Eu.
      * apply pystr_eqb_eq in Eu. subst u. exact Hhash.
      * now apply Hreal.
    + exact Hhash.
  - destruct (falsy_not_str_link md Hmd T) as [E _].
    cbn [bind]. rewrite Hhash.
    destruct md; try reflexivity. rewrite E. reflexivity.
Qed.

(** Lines 72-78 agree with the specification's comment text unless the
    last segment is the marker text itself. *)
Lemma extract_comment_text_spec (fields detailed : json) :
  is_dict detailed = true -> is_dict fields = true ->
  str_or_falsy (field detailed "text" JNull) = true ->
  json_eq_str (comment_text_spec fields detailed) "No comment text found." = false ->
  extract_comment_text fields detailed = Ok (comment_text_spec fields detailed).
Proof.
  intros Hd Hf Ht Hn. unfold extract_comment_text, comment_text_spec in *.
  rewrite (py_get_field detailed) by assumption.
  rewrite (py_get_field fields) by assumption. cbn [bind].
  set (history := field fields _ _) in *.
  destruct (py_truthy _) eqn:T.
  - destruct (truthy_is_str _ Ht T) as [s Es]. rewrite Es in *.
    cbn [stripped_parts bind]. rewrite last_rev_head.
    destruct (List.rev _) as [|segment r].
    + cbn [json_eq_str]. now rewrite pystr_eqb_refl.
    + now rewrite Hn.
  - cbn [bind json_eq_str]. rewrite pystr_eqb_refl.
    destruct (field detailed "text" JNull); try reflexivity.
    destruct s; [reflexivity | discriminate T].
Qed.

(** The facts a shape gives, one per field the formatter reads. *)
Lemma common_shape_facts (payload : json) :
  common_shape payload = true ->
  let resource := field payload "resource" (JObj []) in
  let containers := field payload "resourceContainers" (JObj []) in
  is_dict payload = true /\ is_dict resource = true
  /\ is_dict (field resource "fields" (JObj [])) = true
  /\ is_dict containers = true /\ is_dict (field containers "project" (JObj [])) = true.
Proof.
  unfold common_shape. cbv zeta. intros H.
  repeat rewrite andb_true_iff in H. tauto.
Qed.

Lemma comment_shape_facts (payload : json) :
  comment_shape payload = true ->
  let resource := field payload "resource" (JObj []) in
  let resource_fields := field resource "fields" (JObj []) in
  let message_data := field payload "message" (JObj []) in
  let detailed_message_data := field payload "detailedMessage" (JObj []) in
  let links := field resource "_links" (JObj []) in
  is_dict message_data = true /\ is_dict detailed_message_data = true
  /\ is_dict (field resource_fields "System.ChangedBy" (JObj [])) = true
  /\ str_or_falsy (field detailed_message_data "text" JNull) = true
  /\ is_str (field resource_fields "System.History"
                (JStr "Could not retrieve comment text.")) = true
  /\ str_or_falsy (field message_data "markdown" JNull) = true
  /\ str_or_falsy (field message_data "html" JNull) = true
  /\ is_dict links = true /\ is_dict (field links "html" (JObj [])) = true.
Proof.
  unfold comment_shape. cbv zeta. intros H.
  repeat rewrite andb_true_iff in H. tauto.
Qed.

Lemma pullrequest_shape_facts (payload : json) :
  pullrequest_shape payload = true ->
  let resource := field payload "resource" (JObj []) in
  let links := field resource "_links" (JObj []) in
  let repo := field resource "repository" (JObj []) in
  is_dict repo = true /\ is_dict (field repo "project" (JObj [])) = true
  /\ is_dict (field resource "createdBy" (JObj [])) = true
  /\ is_str (field resource "sourceRefName" (JStr "N/A")) = true
  /\ is_str (field resource "targetRefName" (JStr "N/A")) = true
  /\ is_dict links = true /\ is_dict (field links "web" (JObj [])) = true.
Proof.
  unfold pullrequest_shape. cbv zeta. intros H.
  repeat rewrite andb_true_iff in H. tauto.
Qed.

Lemma inbound_event_common (payload : json) :
  inbound_event payload = true -> common_shape payload = true.
Proof. unfold inbound_event. intros H. now apply andb_true_iff in H. Qed.

Lemma inbound_comment_event (payload : json) :
  inbound_event payload = true ->
  json_eq_str (event_type payload) "workitem.commented" = true ->
  comment_shape payload = true.
Proof.
  unfold inbound_event. intros H He. rewrite He in H. now apply andb_true_iff in H.
Qed.

Lemma inbound_pullrequest_event (payload : json) :
  inbound_event payload = true ->
  json_eq_str (event_type payload) "workitem.commented" = false ->
  json_eq_str (event_type payload) "git.pullrequest.created" = true ->
  pullrequest_shape payload = true.
Proof.
  unfold inbound_event. intros H Hc He. rewrite Hc, He in H.
  now apply andb_true_iff in H.
Qed.

Ltac common_facts H :=
  let S := fresh "S" in
  pose proof (common_shape_facts _ H) as S; cbv zeta in S;
  destruct S as (Hpayload & Hresource & Hfields & Hcontainers & Hcproject).

Ltac comment_facts H :=
  let S := fresh "S" in
  pose proof (comment_shape_facts _ H) as S; cbv zeta in S;
  destruct S as (Hmessage & Hdetailed & Hchanged & Htext & Hhistory & Hmarkdown & Hhtml
                 & Hlinks & Hlhtml).

Ltac pullrequest_facts H :=
  let S := fresh "S" in
  pose proof (pullrequest_shape_facts _ H) as S; cbv zeta in S;
  destruct S as (Hrepo & Hrproject & Hcreated & Hsource & Htarget & Hlinks & Hlweb).

Section FormatterProperties.
Context {rt : PyRuntime}.

Lemma chat_card_well_formed (cid title subtitle icon : pystr)
      (more : list (pystr * json)) (w : json) (ws : list json) :
  well_formed_message
    (chat_card cid
       (JObj ("title" :-> JStr title :: "subtitle" :-> JStr subtitle
                :: "imageUrl" :-> JStr icon :: more))
       (w :: ws)) = true.
Proof. reflexivity. Qed.

Lemma comment_card_well_formed (resource fields message detailed project m : json) :
  comment_card resource fields message detailed project = Ok (Some m) ->
  well_formed_message m = true.
Proof.
  unfold comment_card. intros H. bind_inv H; [|discriminate H].
  injection H as <-. apply chat_card_well_formed.
Qed.

Lemma pullrequest_card_well_formed (resource project m : json) :
  pullrequest_card resource project = Ok (Some m) ->
  well_formed_message m = true.
Proof.
  unfold pullrequest_card. intros H. bind_inv H;
    injection H as <-; apply chat_card_well_formed.
Qed.

Lemma format_card_well_formed (payload m : json) :
  format_ado_event_card payload = Ok (Some m) -> well_formed_message m = true.
Proof.
  intros H. unfold format_ado_event_card in H. bind_inv H.
  - eapply comment_card_well_formed; eassumption.
  - eapply pullrequest_card_well_formed; eassumption.
  - discriminate H.
Qed.

Lemma well_formed_truthy (m : json) : well_formed_message m = true -> py_truthy m = true.
Proof. destruct m as [| | | | | |[|kv kvs]]; try discriminate. reflexivity. Qed.

Lemma resolve_project_name_ok (payload fields : json) :
  is_dict payload = true -> is_dict fields = true ->
  is_dict (field payload "resourceContainers" (JObj [])) = true ->
  is_dict (field (field payload "resourceContainers" (JObj [])) "project" (JObj [])) = true ->
  exists project_name, resolve_project_name payload fields = Ok project_name.
Proof.
  intros Hp Hf Hc Hcp. unfold resolve_project_name.
  rewrite (py_get_field fields) by assumption. cbn [bind].
  destruct (py_truthy _); [eauto|].
  rewrite (py_get_field payload) by assumption. cbn [bind].
  rewrite py_get_field by assumption. cbn [bind].
  rewrite py_get_field by assumption. eauto.
Qed.

Lemma extract_comment_text_is_str (fields detailed : json) :
  is_dict detailed = true -> is_dict fields = true ->
  str_or_falsy (field detailed "text" JNull) = true ->
  is_str (field fields "System.History" (JStr "Could not retrieve comment text.")) = true ->
  exists text, extract_comment_text fields detailed = Ok (JStr text).
Proof.
  intros Hd Hf Ht Hh. unfold extract_comment_text.
  rewrite (py_get_field detailed) by assumption.
  rewrite (py_get_field fields) by assumption. cbn [bind].
  set (history := field fields _ _) in *.
  assert (Hhist : exists text, Ok history = Ok (JStr text)).
  { destruct history; try discriminate. eauto. }
  destruct (py_truthy _) eqn:T.
  - destruct (truthy_is_str _ Ht T) as [s ->]. cbn [stripped_parts bind].
    destruct (json_eq_str _ _); eauto.
  - cbn [bind]. destruct (json_eq_str _ _); eauto.
Qed.

(** The gating rule of lines 93-116, for a comment text that is a string. *)
Lemma comment_card_gate (resource fields message detailed project link : json) (text : pystr) :
  is_dict resource = true -> is_dict fields = true ->
  is_dict (field fields "System.ChangedBy" (JObj [])) = true ->
  extract_comment_text fields detailed = Ok (JStr text) ->
  extract_work_item_link message resource = Ok link ->
  if str_contains tag_to_find text
  then exists m,
      comment_card resource fields message detailed project = Ok (Some m)
      /\ button_url (message_widgets m) = if json_eq_str link "#" then None else Some link
  else comment_card resource fields message detailed project = Ok None.
Proof.
  intros Hr Hf Hc Et El. unfold comment_card.
  rewrite !(py_get_field resource) by assumption.
  rewrite !(py_get_field fields) by assumption. cbn [bind].
  rewrite py_get_field by assumption. cbn [bind].
  rewrite Et, El. cbn [bind py_in].
  destruct (str_contains tag_to_find text); cbn [bind]; [|reflexivity].
  eexists. split; [reflexivity|].
  destruct (json_eq_str link "#"); reflexivity.
Qed.

Lemma pullrequest_card_branches (resource project : json) :
  is_dict resource = true ->
  is_dict (field resource "repository" (JObj [])) = true ->
  is_dict (field (field resource "repository" (JObj [])) "project" (JObj [])) = true ->
  is_dict (field resource "createdBy" (JObj [])) = true ->
  is_dict (field resource "_links" (JObj [])) = true ->
  is_dict (field (field resource "_links" (JObj [])) "web" (JObj [])) = true ->
  forall source target : pystr,
  field resource "sourceRefName" (JStr "N/A") = JStr source ->
  field resource "targetRefName" (JStr "N/A") = JStr target ->
  exists m,
    pullrequest_card resource project = Ok (Some m)
    /\ labelled_text "Branches" (message_widgets m)
       = Some (JStr (py_replace "refs/heads/" "" source +++ " " +++ arrow +++ " "
                       +++ py_replace "refs/heads/" "" target)).
Proof.
  intros Hr Hrepo Hproj Hcb Hl Hw source target Es Et. unfold pullrequest_card.
  rewrite !(py_get_field resource) by assumption. cbn [bind].
  rewrite !py_get_field by assumption. cbn [bind].
  rewrite !py_get_field by assumption. cbn [bind].
  rewrite Es, Et. cbn [str_replace bind].
  destruct (json_eq_str _ _); cbn [bind]; eexists; split; reflexivity.
Qed.

Lemma format_steps (payload : json) :
  common_shape payload = true ->
  exists project_name,
    format_ado_event_card payload =
    if json_eq_str (event_type payload) "workitem.commented" then
      comment_card (field payload "resource" (JObj []))
        (field (field payload "resource" (JObj [])) "fields" (JObj []))
        (field payload "message" (JObj [])) (field payload "detailedMessage" (JObj []))
        project_name
    else if json_eq_str (event_type payload) "git.pullrequest.created" then
      pullrequest_card (field payload "resource" (JObj [])) project_name
    else Ok None.
Proof.
  intros H. common_facts H.
  destruct (resolve_project_name_ok payload
              (field (field payload "resource" (JObj [])) "fields" (JObj [])))
    as [project_name Ep]; try assumption.
  exists project_name. unfold format_ado_event_card, event_type.
  rewrite !(py_get_field payload) by assumption. cbn [bind].
  rewrite py_get_field by assumption. cbn [bind].
  rewrite Ep. reflexivity.
Qed.

Lemma comment_card_on_event (payload project_name : json) :
  common_shape payload = true -> comment_shape payload = true ->
  exists text link,
    comment_text_of payload = Ok (JStr text)
    /\ work_item_link_of payload = Ok link
    /\ link = real_link_by_precedence (field payload "message" (JObj []))
                (field payload "resource" (JObj []))
    /\ if str_contains tag_to_find text
       then exists m,
           comment_card (field payload "resource" (JObj []))
             (field (field payload "resource" (JObj [])) "fields" (JObj []))
             (field payload "message" (JObj [])) (field payload "detailedMessage" (JObj []))
             project_name = Ok (Some m)
           /\ button_url (message_widgets m)
              = if json_eq_str link "#" then None else Some link
       else comment_card (field payload "resource" (JObj []))
              (field (field payload "resource" (JObj [])) "fields" (JObj []))
              (field payload "message" (JObj [])) (field payload "detailedMessage" (JObj []))
              project_name = Ok None.
Proof.
  intros H Hc. common_facts H. comment_facts Hc.
  destruct (extract_comment_text_is_str
              (field (field payload "resource" (JObj [])) "fields" (JObj []))
              (field payload "detailedMessage" (JObj []))) as [text Et]; try assumption.
  pose proof (extract_work_item_link_real (field payload "message" (JObj []))
                (field payload "resource" (JObj []))
                Hmessage Hmarkdown Hhtml Hresource Hlinks Hlhtml) as El.
  exists text, (real_link_by_precedence (field payload "message" (JObj []))
                  (field payload "resource" (JObj []))).
  repeat split.
  - unfold comment_text_of. rewrite !(py_get_field payload) by assumption. cbn [bind].
    rewrite py_get_field by assumption. exact Et.
  - unfold work_item_link_of. rewrite !(py_get_field payload) by assumption. exact El.
  - eapply comment_card_gate; eassumption.
Qed.

Lemma pullrequest_card_on_event (payload project_name : json) :
  common_shape payload = true -> pullrequest_shape payload = true ->
  exists m, pullrequest_card (field payload "resource" (JObj [])) project_name = Ok (Some m).
Proof.
  intros H Hp. common_facts H. pullrequest_facts Hp.
  destruct (field (field payload "resource" (JObj [])) "sourceRefName" (JStr "N/A")) eqn:Es;
    try discriminate.
  destruct (field (field payload "resource" (JObj [])) "targetRefName" (JStr "N/A")) eqn:Et;
    try discriminate.
  destruct (pullrequest_card_branches (field payload "resource" (JObj [])) project_name)
    with (source := s) (target := s0) as (m & E & _); try assumption. eauto.
Qed.

End FormatterProperties.

(** ** [str.replace] against prefix stripping *)

Lemma replace_from_skip (old new a s : pystr) :
  replace_from old new (List.length a) (a ++ s) = replace_from old new 0 s.
Proof. induction a as [|x a IH]; simpl; [reflexivity | exact IH]. Qed.

Lemma replace_absent (old new s : pystr) :
  str_contains old s = false -> py_replace old new s = s.
Proof.
  unfold py_replace. induction s as [|c s IH]; [reflexivity|].
  cbn [str_contains replace_from]. intros H.
  apply orb_false_iff in H as [H1 H2]. rewrite H1, IH; trivial.
Qed.

(** On a ref name that has the prefix once, at its start, replacing the
    prefix strips it. *)
Lemma replace_strips_single_prefix (prefix name : pystr) :
  prefix <> [] -> str_contains prefix name = false ->
  py_replace prefix [] (prefix ++ name) = strip_prefix prefix (prefix ++ name).
Proof.
  intros Hp Hn. unfold strip_prefix.
  assert (Hs : starts_with prefix (prefix ++ name) = true)
    by (apply starts_with_prefix; eauto).
  rewrite Hs, skipn_app, skipn_all, Nat.sub_diag. simpl.
  destruct prefix as [|x prefix]; [congruence|].
  unfold py_replace. cbn [app replace_from]. cbn [app] in Hs. rewrite Hs.
  cbn [List.length]. rewrite Nat.sub_succ, Nat.sub_0_r, replace_from_skip.
  now apply replace_absent.
Qed.

(** ** The specification of the Event Formatter *)

Section FormatterClaims.
Context {rt : PyRuntime}.

(** The gating rule on any payload: whenever the formatter returns on a
    [workitem.commented] event, it returns a card exactly when [in] found
    the mention in the extracted comment text. *)
Lemma gate_whenever_formatter_returns (payload : json) (r : option json) :
  json_eq_str (event_type payload) "workitem.commented" = true ->
  format_ado_event_card payload = Ok r ->
  exists comment_text tagged,
    comment_text_of payload = Ok comment_text
    /\ py_in tag_to_find comment_text = Ok tagged
    /\ (tagged = true <-> exists m, r = Some m).
Proof.
  intros He H. unfold format_ado_event_card in H.
  apply bind_ok in H as (et & Eet & H). apply bind_ok in H as (msg & Emsg & H).
  apply bind_ok in H as (det & Edet & H). apply bind_ok in H as (res & Eres & H).
  apply bind_ok in H as (fields & Ef & H). apply bind_ok in H as (pn & Epn & H).
  apply bind_ok in H as (did & Edid & H). cbv zeta in H.
  apply py_get_ok_dict in Eet as [_ ->]. fold (event_type payload) in H. rewrite He in H.
  unfold comment_card in H.
  apply bind_ok in H as (wi_id & _ & H). apply bind_ok in H as (wi_type & _ & H).
  apply bind_ok in H as (wi_title & _ & H). apply bind_ok in H as (cb & _ & H).
  apply bind_ok in H as (commenter & _ & H). apply bind_ok in H as (ct & Ect & H).
  apply bind_ok in H as (link & _ & H). apply bind_ok in H as (tagged & Etag & H).
  exists ct, tagged. split; [|split; [exact Etag|]].
  - unfold comment_text_of. rewrite Edet, Eres. cbn [bind]. rewrite Ef. exact Ect.
  - destruct tagged.
    + apply bind_ok in H as (rev & _ & H). cbv zeta in H. injection H as <-.
      split; eauto.
    + injection H as <-. split; [discriminate | intros [m Hm]; discriminate].
Qed.

(** C1, as amended.  For a [workitem.commented] event in which every
    field the branch reads is missing or of the expected type, the
    extracted comment text is a string and the formatter returns a Chat
    Message exactly when that text contains the mention
    ["@Francisco Aliss"], character for character, somewhere inside it;
    when it does not, the formatter returns nothing. *)
Theorem mention_gates_comment_card (payload : json) :
  inbound_event payload = true ->
  json_eq_str (event_type payload) "workitem.commented" = true ->
  exists text,
    comment_text_of payload = Ok (JStr text)
    /\ ((exists m, format_ado_event_card payload = Ok (Some m))
        <-> exists before after, text = before ++ lit "@Francisco Aliss" ++ after)
    /\ ((forall before after, text <> before ++ lit "@Francisco Aliss" ++ after)
        -> format_ado_event_card payload = Ok None).
Proof.
  intros H He.
  destruct (format_steps payload (inbound_event_common payload H)) as [project_name ->].
  rewrite He.
  destruct (comment_card_on_event payload project_name (inbound_event_common payload H)
              (inbound_comment_event payload H He)) as (text & link & Et & _ & _ & G).
  exists text. split; [exact Et|].
  change (lit "@Francisco Aliss") with tag_to_find.
  rewrite <- str_contains_substring.
  destruct (str_contains tag_to_find text) eqn:C.
  - destruct G as (m & G & _). rewrite G. split.
    + split; eauto.
    + intros Hn. apply str_contains_substring in C as (before & after & C).
      now destruct (Hn before after).
  - rewrite G. split; [|reflexivity].
    split; [intros [m Hm]; discriminate | discriminate].
Qed.

(** Without gating: a [git.pullrequest.created] event always gets a card,
    whose branch line shows both ref names after [replace]. *)
Lemma pullrequest_gets_card (payload : json) (source target : pystr) :
  inbound_event payload = true ->
  json_eq_str (event_type payload) "git.pullrequest.created" = true ->
  field (field payload "resource" (JObj [])) "sourceRefName" (JStr "N/A") = JStr source ->
  field (field payload "resource" (JObj [])) "targetRefName" (JStr "N/A") = JStr target ->
  exists m,
    format_ado_event_card payload = Ok (Some m)
    /\ labelled_text "Branches" (message_widgets m)
       = Some (JStr (py_replace "refs/heads/" "" source +++ " " +++ arrow +++ " "
                       +++ py_replace "refs/heads/" "" target)).
Proof.
  intros H He Es Et.
  destruct (format_steps payload (inbound_event_common payload H)) as [project_name ->].
  destruct (json_eq_str (event_type payload) "workitem.commented") eqn:Ec.
  - unfold json_eq_str in *. destruct (event_type payload); try discriminate.
    apply pystr_eqb_eq in Ec, He. subst. discriminate.
  - rewrite He. pose proof (inbound_event_common payload H) as Hc. common_facts Hc.
    pose proof (inbound_pullrequest_event payload H Ec He) as Hp. pullrequest_facts Hp.
    now apply pullrequest_card_branches.
Qed.

(** C2.  The branch names are computed with [replace], which removes the
    text [refs/heads/] wherever it occurs: for the source ref
    [refs/heads/team/refs/heads/x] the card shows [team/x], whereas
    stripping the prefix gives [team/refs/heads/x]. *)
Theorem nested_ref_is_not_prefix_stripped :
  exists m,
    format_ado_event_card
      (Sample.branch_event "refs/heads/team/refs/heads/x" "refs/heads/main") = Ok (Some m)
    /\ labelled_text "Branches" (message_widgets m)
       = Some (JStr ("team/x " +++ arrow +++ " main"))
    /\ strip_prefix "refs/heads/" "refs/heads/team/refs/heads/x" = "team/refs/heads/x".
Proof. eexists. repeat split; reflexivity. Qed.

(** C3, as amended.  On an Inbound Event (a JSON object whose nested
    fields are absent or of the expected type) the formatter returns,
    with a Chat Message or with nothing, and does not raise; on the empty
    object it returns nothing, and fields that are missing show as their
    placeholders. *)
Theorem format_returns_on_inbound_event (payload : json) :
  inbound_event payload = true ->
  (exists r, format_ado_event_card payload = Ok r)
  /\ format_ado_event_card (JObj []) = Ok None
  /\ format_ado_event_card (JObj ["eventType" :-> JStr "git.pullrequest.created"])
     = Ok (Some (chat_card "pr-N/A"
                   (JObj ["title" :-> JStr "Pull Request #N/A Created";
                          "subtitle" :-> JStr "Repo: N/A | Project: Unknown Project";
                          "imageUrl" :->
                            JStr "https://img.icons8.com/fluent/48/000000/pull-request.png";
                          "imageType" :-> JStr "CIRCLE"])
                   [decorated_text "Title" (JStr "N/A");
                    decorated_text "Created By" (JStr "N/A");
                    decorated_text "Branches" (JStr ("N/A " +++ arrow +++ " N/A"))]))
  /\ format_ado_event_card
       (JObj ["eventType" :-> JStr "workitem.commented";
              "detailedMessage" :-> JObj ["text" :-> JStr "@Francisco Aliss"]])
     = Ok (Some (chat_card "comment-wi-N/A-rev-N/A"
                   (JObj ["title" :-> JStr "New Comment on Work Item #N/A";
                          "subtitle" :-> JStr "N/A | By: Unknown User";
                          "imageUrl" :->
                            JStr "https://img.icons8.com/color/48/000000/comments.png";
                          "imageType" :-> JStr "CIRCLE"])
                   [text_paragraph "<b>Project:</b> Unknown Project";
                    text_paragraph ("<b>Comment:</b>" +++ [10%N] +++ "@Francisco Aliss")])).
Proof.
  intros H. split; [|repeat split; reflexivity].
  pose proof (inbound_event_common payload H) as Hc.
  destruct (format_steps payload Hc) as [project_name ->].
  destruct (json_eq_str (event_type payload) "workitem.commented") eqn:E1.
  - destruct (comment_card_on_event payload project_name Hc
                (inbound_comment_event payload H E1)) as (text & link & _ & _ & _ & G).
    destruct (str_contains tag_to_find text); [destruct G as (m & -> & _)|rewrite G]; eauto.
  - destruct (json_eq_str (event_type payload) "git.pullrequest.created") eqn:E2; [|eauto].
    destruct (pullrequest_card_on_event payload project_name Hc
                (inbound_pullrequest_event payload H E1 E2)) as [m ->]. eauto.
Qed.

(** C4, as amended.  For a well-typed [workitem.commented] event the link is the
    first, in this order, that is not the placeholder ["#"]: the first URL
    of a markdown [[text](url)] in the message's markdown field, the
    first anchor [href] of its html field with [&amp;] unescaped, then
    the link field of the resource ([_links.html.href], else [url], else
    ["#"]).  So a markdown link other than ["#"] wins over an HTML link,
    and the card's button opens the chosen link when it is not ["#"]. *)
Theorem work_item_link_precedence (payload : json) :
  inbound_event payload = true ->
  json_eq_str (event_type payload) "workitem.commented" = true ->
  work_item_link_of payload
  = Ok (real_link_by_precedence (field payload "message" (JObj []))
          (field payload "resource" (JObj [])))
  /\ (forall url,
        markdown_link (field payload "message" (JObj [])) = Some url -> url <> lit "#" ->
        work_item_link_of payload = Ok (JStr url))
  /\ (forall m link,
        format_ado_event_card payload = Ok (Some m) ->
        work_item_link_of payload = Ok link ->
        button_url (message_widgets m) = if json_eq_str link "#" then None else Some link).
Proof.
  intros H He. pose proof (inbound_event_common payload H) as Hc.
  destruct (format_steps payload Hc) as [project_name Ef].
  rewrite He in Ef.
  destruct (comment_card_on_event payload project_name Hc (inbound_comment_event payload H He))
    as (text & link & _ & El & Elink & G).
  subst link. repeat split.
  - exact El.
  - intros url Em Hu. rewrite El. unfold real_link_by_precedence.
    rewrite Em. cbn [real_link]. apply pystr_eqb_neq in Hu. now rewrite Hu.
  - intros m link Hm Hl. rewrite El in Hl. injection Hl as <-.
    rewrite Ef in Hm. destruct (str_contains tag_to_find text).
    + destruct G as (m0 & G & Hb). rewrite G in Hm. injection Hm as <-. exact Hb.
    + rewrite G in Hm. discriminate Hm.
Qed.

(** C5.  A detailed text whose last non-empty segment is the marker
    ["No comment text found."] is treated as if it had no segment: the
    comment text becomes the history field, where the specification
    takes the segment. *)
Theorem marker_segment_falls_back_to_history :
  comment_text_of (Sample.history_comment_event "No comment text found." "earlier note")
  = Ok (JStr "earlier note")
  /\ comment_text_spec
       (JObj ["System.History" :-> JStr "earlier note"])
       (JObj ["text" :-> JStr "No comment text found."])
     = JStr "No comment text found.".
Proof. split; reflexivity. Qed.

(** The comment text of lines 72-78 is the specification's on every
    other event. *)
Lemma comment_text_meets_spec (payload : json) :
  common_shape payload = true -> comment_shape payload = true ->
  json_eq_str
    (comment_text_spec (field (field payload "resource" (JObj [])) "fields" (JObj []))
       (field payload "detailedMessage" (JObj [])))
    "No comment text found." = false ->
  comment_text_of payload
  = Ok (comment_text_spec (field (field payload "resource" (JObj [])) "fields" (JObj []))
          (field payload "detailedMessage" (JObj []))).
Proof.
  intros H Hc Hn. common_facts H. comment_facts Hc. unfold comment_text_of.
  rewrite !(py_get_field payload) by assumption. cbn [bind].
  rewrite py_get_field by assumption. cbn [bind].
  now apply extract_comment_text_spec.
Qed.

(** C6.  Whatever the payload, the formatter returns nothing, or a
    well-formed Chat Message (a card identifier, a header with title,
    subtitle and icon, at least one widget), or it raises: it never
    returns a partial message. *)
Theorem format_nothing_or_well_formed (payload : json) :
  match format_ado_event_card payload with
  | Ok (Some m) => well_formed_message m = true
  | Ok None => True
  | Raise _ => True
  end.
Proof.
  destruct (format_ado_event_card payload) as [[m|]|e] eqn:H; trivial.
  now apply format_card_well_formed with payload.
Qed.

End FormatterClaims.

(** Sample events: a mention produces a card, no mention produces none. *)
Example review_with_mention_is_sent :
  exists m,
    @format_ado_event_card Sample.chat_up
      (Sample.comment_event "Please review @Francisco Aliss") = Ok (Some m).
Proof. eexists. reflexivity. Qed.

Example review_without_mention_is_dropped :
  @format_ado_event_card Sample.chat_up (Sample.comment_event "Please review") = Ok None.
Proof. reflexivity. Qed.

Example main_branch_is_stripped :
  exists m,
    @format_ado_event_card Sample.chat_up
      (Sample.branch_event "refs/heads/feature" "refs/heads/main") = Ok (Some m)
    /\ labelled_text "Branches" (message_widgets m)
       = Some (JStr ("feature " +++ arrow +++ " main")).
Proof. eexists. split; reflexivity. Qed.

Lemma mention_gates_comment_card_witness :
  inbound_event (Sample.comment_event "Please review @Francisco Aliss") = true
  /\ exists m,
      @format_ado_event_card Sample.chat_up
        (Sample.comment_event "Please review @Francisco Aliss") = Ok (Some m).
Proof.
  split; [reflexivity|].
  destruct (@mention_gates_comment_card Sample.chat_up
              (Sample.comment_event "Please review @Francisco Aliss") eq_refl eq_refl)
    as (text & Et & Hiff & _).
  apply Hiff. vm_compute in Et. injection Et as <-.
  exists (lit "Please review "), []. reflexivity.
Defined.

(** C1 as stated fails on events with fields of other types: when
    [System.ChangedBy] is a string the formatter raises although the
    comment text holds the mention, and a history that is a list is
    searched for the mention as an element, not as a part of the text. *)
Lemma mention_gate_fails_on_untyped_fields :
  comment_text_of Untyped.legacy_mention_event
  = Ok (JStr "Please review @Francisco Aliss")
  /\ str_contains tag_to_find "Please review @Francisco Aliss" = true
  /\ @format_ado_event_card Sample.chat_up Untyped.legacy_mention_event
     = Raise AttributeError
  /\ comment_text_of (Untyped.history_list_event [JStr "see @Francisco Aliss"])
     = Ok (JList [JStr "see @Francisco Aliss"])
  /\ @format_ado_event_card Sample.chat_up
       (Untyped.history_list_event [JStr "see @Francisco Aliss"]) = Ok None
  /\ exists m,
      @format_ado_event_card Sample.chat_up
        (Untyped.history_list_event [JStr "note"; JStr "@Francisco Aliss"]) = Ok (Some m).
Proof. repeat split; try reflexivity. eexists. reflexivity. Qed.

(** C3 as stated fails: a comment event whose [System.ChangedBy] is a
    string, and a payload that is not an object, make the formatter raise. *)
Lemma format_raises_on_unexpected_types :
  @format_ado_event_card Sample.chat_up Sample.legacy_comment_event = Raise AttributeError
  /\ @format_ado_event_card Sample.chat_up (JList []) = Raise AttributeError
  /\ @format_ado_event_card Sample.chat_up
       (JObj ["eventType" :-> JStr "workitem.commented";
              "resource" :-> JObj ["fields" :-> JObj ["System.History" :-> JInt 5]]])
     = Raise TypeError.
Proof. repeat split; reflexivity. Qed.

Lemma format_returns_on_inbound_event_witness :
  inbound_event Sample.pr_event = true
  /\ exists r, @format_ado_event_card Sample.chat_up Sample.pr_event = Ok r.
Proof.
  split; [reflexivity|].
  exact (proj1 (@format_returns_on_inbound_event Sample.chat_up Sample.pr_event eq_refl)).
Defined.

(** C4 as stated fails: a markdown link whose URL is ["#"] is present, and
    so is an HTML link; the HTML link is chosen. *)
Lemma markdown_hash_link_does_not_win :
  markdown_link
    (field (Sample.linked_comment_event "[Bug 7](#)" (Sample.anchor "https://dev.example/7"))
       "message" (JObj [])) = Some (lit "#")
  /\ link_by_precedence
       (field (Sample.linked_comment_event "[Bug 7](#)" (Sample.anchor "https://dev.example/7"))
          "message" (JObj []))
       (field (Sample.linked_comment_event "[Bug 7](#)" (Sample.anchor "https://dev.example/7"))
          "resource" (JObj [])) = JStr "#"
  /\ work_item_link_of
       (Sample.linked_comment_event "[Bug 7](#)" (Sample.anchor "https://dev.example/7"))
     = Ok (JStr "https://dev.example/7").
Proof. repeat split; reflexivity. Qed.

Lemma work_item_link_precedence_witness :
  inbound_event
    (Sample.linked_comment_event "[Bug 7](https://dev.example/md)"
       (Sample.anchor "https://dev.example/html")) = true
  /\ work_item_link_of
       (Sample.linked_comment_event "[Bug 7](https://dev.example/md)"
          (Sample.anchor "https://dev.example/html"))
     = Ok (JStr "https://dev.example/md").
Proof.
  split; [reflexivity|].
  apply (proj1 (proj2 (@work_item_link_precedence Sample.chat_up
                         (Sample.linked_comment_event "[Bug 7](https://dev.example/md)"
                            (Sample.anchor "https://dev.example/html")) eq_refl eq_refl))).
  - reflexivity.
  - discriminate.
Defined.

(** ** Request Authenticator and handler *)

Section HandlerProperties.
Context {rt : PyRuntime}.

Lemma nonempty_neq (s : pystr) : nonempty s = true <-> s <> [].
Proof. destruct s; simpl; split; congruence. Qed.

Lemma decode_credentials_ok (header user pass : pystr) :
  decode_credentials header = Ok (user, pass) <->
  exists scheme encoded raw,
    header = scheme ++ 32%N :: encoded /\ ~ In 32%N scheme
    /\ b64decode encoded = Ok raw
    /\ utf8_decode raw = Ok (user ++ 58%N :: pass) /\ ~ In 58%N user.
Proof.
  unfold decode_credentials. split.
  - intros H.
    destruct (split_once 32 header) as [[scheme encoded]|] eqn:Es; [|discriminate H].
    cbn [bind] in H.
    destruct (b64decode encoded) as [raw|] eqn:Eb; [|discriminate H]. cbn [bind] in H.
    destruct (utf8_decode raw) as [decoded|] eqn:Eu; [|discriminate H]. cbn [bind] in H.
    destruct (split_once 58 decoded) as [[u p]|] eqn:Ec; [|discriminate H].
    injection H as -> ->.
    apply split_once_first in Es as [-> Hs]. apply split_once_first in Ec as [-> Hc].
    exists scheme, encoded, raw. auto.
  - intros (scheme & encoded & raw & -> & Hs & Eb & Eu & Hc).
    rewrite (split_once_app 32 scheme encoded Hs). cbn [bind].
    rewrite Eb. cbn [bind]. rewrite Eu. cbn [bind].
    now rewrite (split_once_app 58 user pass Hc).
Qed.

Lemma auth_passed_iff (cfg : config) (ev : event) :
  auth_passed cfg ev = true <->
  exists header user pass,
    auth_header ev = Some header
    /\ ADO_WEBHOOK_USER cfg = Some user /\ ADO_WEBHOOK_PASS cfg = Some pass
    /\ user <> [] /\ pass <> []
    /\ carries_credentials header user pass.
Proof.
  unfold auth_passed, carries_credentials. split.
  - destruct (ADO_WEBHOOK_USER cfg) as [user|]; [|discriminate].
    destruct (ADO_WEBHOOK_PASS cfg) as [pass|];
      [|cbn [env_set]; rewrite andb_false_r; discriminate].
    cbn [env_set].
    destruct (nonempty user && nonempty pass) eqn:Ene; [|discriminate].
    apply andb_true_iff in Ene as [Hu Hp].
    destruct (auth_header ev) as [header|]; [|discriminate].
    destruct (nonempty header && starts_with "basic " (str_lower header)) eqn:Eh;
      [|discriminate].
    apply andb_true_iff in Eh as [_ Hb].
    destruct (decode_credentials header) as [[username password]|] eqn:Ed; [|discriminate].
    intros H. apply andb_true_iff in H as [H1 H2].
    apply pystr_eqb_eq in H1, H2. subst.
    apply decode_credentials_ok in Ed as (scheme & encoded & raw & E & Hs & Eb & Eu & Hc).
    exists header, user, pass. repeat split; trivial; try now apply nonempty_neq.
    exists scheme, encoded, raw. repeat split; assumption.
  - intros (header & user & pass & -> & -> & -> & Hu & Hp
            & scheme & encoded & raw & E & Hs & Hb & Eb & Eu & Hc).
    cbn [env_set]. apply nonempty_neq in Hu, Hp. rewrite Hu, Hp. cbn [andb].
    rewrite Hb.
    assert (Hne : nonempty header = true) by (subst header; now destruct scheme).
    rewrite Hne. cbn [andb].
    assert (Ed : decode_credentials header = Ok (user, pass)).
    { apply decode_credentials_ok. exists scheme, encoded, raw. auto. }
    rewrite Ed. now rewrite !pystr_eqb_refl.
Qed.

Lemma process_payload_status (cfg : config) (ev : event) :
  statusCode (process_payload cfg ev) = 200%Z
  \/ statusCode (process_payload cfg ev) = 400%Z
  \/ statusCode (process_payload cfg ev) = 500%Z.
Proof.
  unfold process_payload.
  destruct (load_payload ev) as [payload|[]]; cbn; auto.
  destruct (py_get payload _ _); cbn; auto.
  destruct (negb _); cbn; auto.
  destruct (format_ado_event_card payload) as [[m|]|]; cbn; auto.
  destruct (py_truthy m); cbn; auto.
  destruct (send_to_google_chat cfg m); cbn; auto.
Qed.

Lemma is_post_method (ev : event) :
  httpMethod ev = Some (lit "POST") -> is_post ev = true.
Proof. unfold is_post. now intros ->. Qed.

Lemma handler_401_iff (cfg : config) (ev : event) :
  httpMethod ev = Some (lit "POST") ->
  (statusCode (handler cfg ev) = 401%Z <-> auth_passed cfg ev = false).
Proof.
  intros Hm. unfold handler. rewrite (is_post_method ev Hm). cbn [negb].
  destruct (auth_passed cfg ev); cbn [negb].
  - split; [|discriminate].
    destruct (process_payload_status cfg ev) as [E|[E|E]]; rewrite E; discriminate.
  - split; reflexivity.
Qed.

Lemma format_ok_dict (payload : json) (r : option json) :
  format_ado_event_card payload = Ok r -> is_dict payload = true.
Proof.
  unfold format_ado_event_card. intros H.
  apply bind_ok in H as (v & E & _). now apply py_get_ok_dict in E.
Qed.

Lemma send_needs_url (cfg : config) (m : json) :
  env_set (GOOGLE_CHAT_WEBHOOK_URL cfg) = false -> send_to_google_chat cfg m = false.
Proof.
  unfold send_to_google_chat, env_set.
  destruct (GOOGLE_CHAT_WEBHOOK_URL cfg) as [url|]; [|reflexivity]. now intros ->.
Qed.

Lemma handler_after_auth (cfg : config) (ev : event) :
  httpMethod ev = Some (lit "POST") -> auth_passed cfg ev = true ->
  handler cfg ev = process_payload cfg ev.
Proof.
  intros Hm Ha. unfold handler. now rewrite (is_post_method ev Hm), Ha.
Qed.

(** The other answers of the handler. *)
Lemma non_post_is_405 (cfg : config) (ev : event) :
  is_post ev = false -> handler cfg ev = json_response 405 "error" "Method Not Allowed".
Proof. unfold handler. now intros ->. Qed.

Lemma invalid_json_is_400 (cfg : config) (ev : event) :
  httpMethod ev = Some (lit "POST") -> auth_passed cfg ev = true ->
  load_payload ev = Raise JSONDecodeError ->
  handler cfg ev = json_response 400 "error" "Invalid JSON payload".
Proof.
  intros Hm Ha El. rewrite handler_after_auth by assumption.
  unfold process_payload. now rewrite El.
Qed.

Lemma unrecognized_event_needs_no_notification (cfg : config) (ev : event) (payload : json) :
  httpMethod ev = Some (lit "POST") -> auth_passed cfg ev = true ->
  env_set (GOOGLE_CHAT_WEBHOOK_URL cfg) = true ->
  load_payload ev = Ok payload -> inbound_event payload = true ->
  json_eq_str (event_type payload) "workitem.commented" = false ->
  json_eq_str (event_type payload) "git.pullrequest.created" = false ->
  handler cfg ev = json_response 200 "success" "Webhook received, no notification required".
Proof.
  intros Hm Ha Hu El H E1 E2. rewrite handler_after_auth by assumption.
  destruct (format_steps payload (inbound_event_common payload H)) as [project_name Ef].
  rewrite E1, E2 in Ef.
  unfold process_payload. rewrite El.
  rewrite py_get_field by (now apply format_ok_dict with None).
  now rewrite Hu, Ef.
Qed.

(** C7.  A POST is answered 401 unless its [authorization] header carries
    Basic credentials that decode to [user:pass] for the two configured,
    non-empty values, the user name being the text before the first colon.
    With either value not configured the answer is always 401, and so it
    is when decoding the header fails. *)
Theorem handler_401_unless_basic_credentials (cfg : config) (ev : event) :
  httpMethod ev = Some (lit "POST") ->
  (statusCode (handler cfg ev) <> 401%Z <->
   exists header user pass,
     auth_header ev = Some header
     /\ ADO_WEBHOOK_USER cfg = Some user /\ ADO_WEBHOOK_PASS cfg = Some pass
     /\ user <> [] /\ pass <> []
     /\ carries_credentials header user pass)
  /\ (ADO_WEBHOOK_USER cfg = None \/ ADO_WEBHOOK_PASS cfg = None ->
      statusCode (handler cfg ev) = 401%Z)
  /\ (forall header e,
        auth_header ev = Some header -> decode_credentials header = Raise e ->
        statusCode (handler cfg ev) = 401%Z).
Proof.
  intros Hm. pose proof (handler_401_iff cfg ev Hm) as H401.
  rewrite <- auth_passed_iff. repeat split.
  - intros Hn. destruct (auth_passed cfg ev); [reflexivity|].
    exfalso. apply Hn. now apply H401.
  - intros Ha E. apply H401 in E. congruence.
  - intros Hc. apply H401. unfold auth_passed.
    destruct Hc as [-> | ->]; cbn [env_set]; [reflexivity|].
    now rewrite andb_false_r.
  - intros header e Eh Ed. apply H401. unfold auth_passed.
    rewrite Eh, Ed. destruct (_ && _); [|reflexivity].
    destruct (_ && _); reflexivity.
Qed.

(** C8.  On an authenticated POST whose event is formatted to a Chat
    Message, the answer follows the boolean [send_to_google_chat] returns:
    200 and the success message when it is [true], 500 when it is
    [false], with the delivery-failure message whenever a delivery was
    attempted (the chat URL is configured).  [send_to_google_chat] is a
    total function to [bool]: a 4xx or 5xx response and either kind of
    exception of the request give [false]. *)
Theorem handler_reports_delivery (cfg : config) (ev : event) (payload m : json) :
  httpMethod ev = Some (lit "POST") -> auth_passed cfg ev = true ->
  load_payload ev = Ok payload -> format_ado_event_card payload = Ok (Some m) ->
  (send_to_google_chat cfg m = true ->
   handler cfg ev = json_response 200 "success" "Webhook received and notification sent")
  /\ (send_to_google_chat cfg m = false ->
      statusCode (handler cfg ev) = 500%Z
      /\ (env_set (GOOGLE_CHAT_WEBHOOK_URL cfg) = true ->
          handler cfg ev
          = json_response 500 "error"
              "Webhook received but failed to send notification to Google Chat"))
  /\ (forall url status,
        GOOGLE_CHAT_WEBHOOK_URL cfg = Some url ->
        requests_post url m = Responded status ->
        (400 <= status < 600)%Z -> send_to_google_chat cfg m = false)
  /\ (forall url,
        GOOGLE_CHAT_WEBHOOK_URL cfg = Some url ->
        requests_post url m = RequestException \/ requests_post url m = OtherException ->
        send_to_google_chat cfg m = false).
Proof.
  intros Hm Ha El Ef. rewrite handler_after_auth by assumption.
  unfold process_payload. rewrite El.
  rewrite py_get_field by (now apply format_ok_dict with (Some m)).
  rewrite Ef, (well_formed_truthy m (format_card_well_formed payload m Ef)).
  destruct (env_set (GOOGLE_CHAT_WEBHOOK_URL cfg)) eqn:Hu; cbn [negb].
  - split; [|split; [|split]].
    + now intros ->.
    + intros ->. split; reflexivity.
    + intros url status Eu Ep Hs. unfold send_to_google_chat, raises_for_status.
      rewrite Eu, Ep. destruct (nonempty url); [|reflexivity].
      apply negb_false_iff, andb_true_iff. split; [apply Z.leb_le | apply Z.ltb_lt]; lia.
    + intros url Eu Ep. unfold send_to_google_chat. rewrite Eu.
      destruct (nonempty url); [|reflexivity]. now destruct Ep as [-> | ->].
  - rewrite (send_needs_url cfg m Hu). split; [|split; [|split]].
    + discriminate.
    + intros _. split; [reflexivity | discriminate].
    + reflexivity.
    + reflexivity.
Qed.

(** C9, as amended.  On an authenticated POST that has no body field the
    handler parses the text [{}] to the empty object; with the chat URL
    configured it answers 200 with the no-notification message (not the
    400 of an invalid body), and with the chat URL not configured it
    answers 500 with the configuration error. *)
Theorem absent_body_needs_no_notification (cfg : config) (ev : event) :
  httpMethod ev = Some (lit "POST") -> auth_passed cfg ev = true ->
  body ev = None ->
  load_payload ev = Ok (JObj [])
  /\ handler cfg ev
     = if env_set (GOOGLE_CHAT_WEBHOOK_URL cfg)
       then json_response 200 "success" "Webhook received, no notification required"
       else json_response 500 "error" "Webhook processor configuration error".
Proof.
  intros Hm Ha Hb.
  assert (El : load_payload ev = Ok (JObj [])).
  { unfold load_payload. rewrite Hb. apply json_loads_empty_object. }
  split; [exact El|]. rewrite handler_after_auth by assumption.
  unfold process_payload. rewrite El.
  destruct (env_set (GOOGLE_CHAT_WEBHOOK_URL cfg)); reflexivity.
Qed.

(** C10.  With the chat URL not configured, an authenticated POST whose
    body parses as JSON is answered 500: with the configuration error
    whenever the parsed value is an object, whatever its event type, for
    the check comes before the event is formatted. *)
Theorem missing_chat_url_is_500 (cfg : config) (ev : event) (payload : json) :
  httpMethod ev = Some (lit "POST") -> auth_passed cfg ev = true ->
  env_set (GOOGLE_CHAT_WEBHOOK_URL cfg) = false ->
  load_payload ev = Ok payload ->
  statusCode (handler cfg ev) = 500%Z
  /\ (is_dict payload = true ->
      handler cfg ev = json_response 500 "error" "Webhook processor configuration error").
Proof.
  intros Hm Ha Hu El. rewrite handler_after_auth by assumption.
  unfold process_payload. rewrite El, Hu. cbn [negb].
  destruct (py_get payload _ _) as [v|e] eqn:Eg.
  - split; reflexivity.
  - split; [reflexivity|]. intros Hd. rewrite py_get_field in Eg by assumption.
    discriminate Eg.
Qed.

End HandlerProperties.

Lemma handler_401_unless_basic_credentials_witness :
  httpMethod (Sample.post_with None) = Some (lit "POST")
  /\ exists header user pass,
      @auth_header (Sample.post_with None) = Some header
      /\ ADO_WEBHOOK_USER Sample.configured = Some user
      /\ ADO_WEBHOOK_PASS Sample.configured = Some pass
      /\ user <> [] /\ pass <> []
      /\ @carries_credentials Sample.chat_up header user pass.
Proof.
  split; [reflexivity|].
  apply (proj1 (proj1 (@handler_401_unless_basic_credentials Sample.chat_up
                         Sample.configured (Sample.post_with None) eq_refl))).
  vm_compute. discriminate.
Defined.

(** Sample requests: a wrong password, a missing header and a missing
    configuration are all answered 401; a method other than POST 405. *)
Example wrong_password_is_401 :
  statusCode (@handler Sample.chat_up Sample.configured
                {| httpMethod := Some (lit "POST");
                   headers := Some [("authorization" : pystr,
                                     "Basic dXNlcjp3cm9uZw==" : pystr)];
                   body := None |}) = 401%Z.
Proof. reflexivity. Qed.

Example missing_header_is_401 :
  statusCode (@handler Sample.chat_up Sample.configured
                {| httpMethod := Some (lit "POST"); headers := None; body := None |})
  = 401%Z.
Proof. reflexivity. Qed.

Example missing_credentials_fail_closed :
  statusCode (@handler Sample.chat_up
                {| GOOGLE_CHAT_WEBHOOK_URL := Some (lit "https://chat.example/hook");
                   ADO_WEBHOOK_USER := Some (lit "user");
                   ADO_WEBHOOK_PASS := None |}
                (Sample.post_with None)) = 401%Z.
Proof. reflexivity. Qed.

Example get_is_405 :
  statusCode (@handler Sample.chat_up Sample.configured
                {| httpMethod := Some (lit "GET"); headers := None; body := None |})
  = 405%Z.
Proof. reflexivity. Qed.

Example delivered_pull_request_is_200 :
  statusCode (@handler Sample.chat_up Sample.configured
                (Sample.post_with (Some (Some (Sample.dumps Sample.pr_event))))) = 200%Z.
Proof. reflexivity. Qed.

Lemma handler_reports_delivery_witness :
  @auth_passed Sample.chat_down Sample.configured
    (Sample.post_with (Some (Some (Sample.dumps Sample.pr_event)))) = true
  /\ statusCode (@handler Sample.chat_down Sample.configured
                   (Sample.post_with (Some (Some (Sample.dumps Sample.pr_event))))) = 500%Z.
Proof.
  split; [reflexivity|].
  destruct (@format_ado_event_card Sample.chat_down Sample.pr_event) as [[m|]|e] eqn:Ef;
    try discriminate Ef.
  apply (proj1 (proj2 (@handler_reports_delivery Sample.chat_down Sample.configured
                         (Sample.post_with (Some (Some (Sample.dumps Sample.pr_event))))
                         Sample.pr_event m eq_refl eq_refl eq_refl Ef))).
  vm_compute in Ef. injection Ef as <-. reflexivity.
Defined.

(** C9 as stated fails: without a chat URL the same request is answered
    500. *)
Lemma absent_body_without_chat_url_is_500 :
  @auth_passed Sample.chat_up Sample.without_chat_url (Sample.post_with None) = true
  /\ body (Sample.post_with None) = None
  /\ statusCode (@handler Sample.chat_up Sample.without_chat_url (Sample.post_with None))
     = 500%Z.
Proof. repeat split; reflexivity. Qed.

Lemma absent_body_needs_no_notification_witness :
  @auth_passed Sample.chat_up Sample.configured (Sample.post_with None) = true
  /\ statusCode (@handler Sample.chat_up Sample.configured (Sample.post_with None)) = 200%Z.
Proof.
  split; [reflexivity|].
  rewrite (proj2 (@absent_body_needs_no_notification Sample.chat_up Sample.configured
                    (Sample.post_with None) eq_refl eq_refl eq_refl)).
  reflexivity.
Defined.

Lemma missing_chat_url_is_500_witness :
  @auth_passed Sample.chat_up Sample.without_chat_url
    (Sample.post_with (Some (Some (Sample.dumps Sample.unknown_event)))) = true
  /\ statusCode (@handler Sample.chat_up Sample.without_chat_url
                   (Sample.post_with (Some (Some (Sample.dumps Sample.unknown_event)))))
     = 500%Z.
Proof.
  split; [reflexivity|].
  exact (proj1 (@missing_chat_url_is_500 Sample.chat_up Sample.without_chat_url
                  (Sample.post_with (Some (Some (Sample.dumps Sample.unknown_event))))
                  Sample.unknown_event eq_refl eq_refl eq_refl eq_refl)).
Defined.

(** * Further properties of the code *)

(** ** The outbound requests of the handler *)

Section EffectProperties.
Context {rt : PyRuntime}.

Lemma send_io_value (cfg : config) (m : json) :
  fst (send_to_google_chat_io cfg m) = send_to_google_chat cfg m.
Proof.
  unfold send_to_google_chat_io, send_to_google_chat.
  destruct (GOOGLE_CHAT_WEBHOOK_URL cfg) as [url|]; [|reflexivity].
  destruct (nonempty url); reflexivity.
Qed.

Lemma process_payload_io_response (cfg : config) (ev : event) :
  fst (process_payload_io cfg ev) = process_payload cfg ev.
Proof.
  unfold process_payload_io, process_payload.
  destruct (load_payload ev) as [payload|[]]; try reflexivity.
  destruct (py_get payload _ _); [|reflexivity].
  destruct (negb _); [reflexivity|].
  destruct (format_ado_event_card payload) as [chat_payload|]; [|reflexivity].
  destruct (match chat_payload with Some m => py_truthy m | None => false end);
    [|reflexivity].
  rewrite <- send_io_value.
  destruct (send_to_google_chat_io cfg _) as [ok posts]. reflexivity.
Qed.

Lemma handler_io_response (cfg : config) (ev : event) :
  fst (handler_io cfg ev) = handler cfg ev.
Proof.
  unfold handler_io, handler. destruct (negb (is_post ev)); [reflexivity|].
  destruct (negb (auth_passed cfg ev)); [reflexivity|].
  apply process_payload_io_response.
Qed.

Lemma handler_io_after_auth (cfg : config) (ev : event) :
  httpMethod ev = Some (lit "POST") -> auth_passed cfg ev = true ->
  handler_io cfg ev = process_payload_io cfg ev.
Proof.
  intros Hm Ha. unfold handler_io. now rewrite (is_post_method ev Hm), Ha.
Qed.

(** X1.  [send_to_google_chat] returns [True] exactly when the chat URL is
    configured and non-empty and the endpoint answers with a status
    outside 400..599.  It attempts one request, to that URL with the
    message as body, and none at all when the URL is not configured. *)
Theorem send_succeeds_iff_accepted (cfg : config) (m : json) :
  (send_to_google_chat cfg m = true <->
   exists url status,
     GOOGLE_CHAT_WEBHOOK_URL cfg = Some url /\ url <> []
     /\ requests_post url m = Responded status
     /\ (status < 400 \/ 600 <= status)%Z)
  /\ fst (send_to_google_chat_io cfg m) = send_to_google_chat cfg m
  /\ snd (send_to_google_chat_io cfg m)
     = match GOOGLE_CHAT_WEBHOOK_URL cfg with
       | Some url => if nonempty url then [(url, m)] else []
       | None => []
       end.
Proof.
  split; [|split; [apply send_io_value|]].
  - unfold send_to_google_chat, raises_for_status. split.
    + destruct (GOOGLE_CHAT_WEBHOOK_URL cfg) as [url|]; [|discriminate].
      destruct (nonempty url) eqn:Hn; [|discriminate].
      destruct (requests_post url m) as [status| |] eqn:Ep; try discriminate.
      intros H. exists url, status. repeat split; trivial.
      * now apply nonempty_neq.
      * apply negb_true_iff, andb_false_iff in H as [H|H].
        -- left. apply Z.leb_gt in H. lia.
        -- right. apply Z.ltb_ge in H. lia.
    + intros (url & status & -> & Hn & -> & Hs).
      apply nonempty_neq in Hn. rewrite Hn.
      apply negb_true_iff, andb_false_iff.
      destruct Hs; [left; apply Z.leb_gt | right; apply Z.ltb_ge]; lia.
  - unfold send_to_google_chat_io.
    destruct (GOOGLE_CHAT_WEBHOOK_URL cfg) as [url|]; [|reflexivity].
    destruct (nonempty url); reflexivity.
Qed.

(** X2.  [handler] makes at most one outbound request per call, and only on
    an authenticated POST: the request goes to the configured chat URL
    and its body is the well-formed message the formatter returned for
    the parsed payload. *)
Theorem handler_posts_at_most_once (cfg : config) (ev : event) :
  (List.length (snd (handler_io cfg ev)) <= 1)%nat
  /\ forall url m,
       In (url, m) (snd (handler_io cfg ev)) ->
       is_post ev = true /\ auth_passed cfg ev = true
       /\ GOOGLE_CHAT_WEBHOOK_URL cfg = Some url
       /\ well_formed_message m = true
       /\ exists payload,
           load_payload ev = Ok payload
           /\ format_ado_event_card payload = Ok (Some m).
Proof.
  unfold handler_io.
  destruct (is_post ev); cbn [negb]; [|split; [cbn; lia | intros ? ? []]].
  destruct (auth_passed cfg ev); cbn [negb]; [|split; [cbn; lia | intros ? ? []]].
  unfold process_payload_io.
  destruct (load_payload ev) as [payload|[]]; try (split; [cbn; lia | intros ? ? []]).
  destruct (py_get payload _ _); [|split; [cbn; lia | intros ? ? []]].
  destruct (negb _); [split; [cbn; lia | intros ? ? []]|].
  destruct (format_ado_event_card payload) as [[m|]|] eqn:Ef;
    try (split; [cbn; lia | intros ? ? []]).
  destruct (py_truthy m); [|split; [cbn; lia | intros ? ? []]].
  unfold send_to_google_chat_io.
  destruct (GOOGLE_CHAT_WEBHOOK_URL cfg) as [url|]; [|split; [cbn; lia | intros ? ? []]].
  destruct (nonempty url); [|split; [cbn; lia | intros ? ? []]].
  cbn [snd List.length]. split; [lia|].
  intros url' m' [H|[]]. injection H as <- <-.
  repeat split; trivial.
  - now apply format_card_well_formed with payload.
  - eauto.
Qed.

(** X3.  A call whose method is not POST (or is missing) is answered 405,
    whatever its headers, body and the configuration, and makes no
    outbound request. *)
Theorem non_post_is_rejected (cfg : config) (ev : event) :
  httpMethod ev <> Some (lit "POST") ->
  handler_io cfg ev = (json_response 405 "error" "Method Not Allowed", []).
Proof.
  intros Hm. unfold handler_io, is_post.
  destruct (httpMethod ev) as [m|]; [|reflexivity].
  destruct (pystr_eqb m "POST") eqn:E; [|reflexivity].
  apply pystr_eqb_eq in E. subst. contradiction.
Qed.

(** X4.  An authenticated POST whose body [json.loads] rejects is answered 400,
    configured chat URL or not, and makes no outbound request. *)
Theorem invalid_json_is_rejected (cfg : config) (ev : event) :
  httpMethod ev = Some (lit "POST") -> auth_passed cfg ev = true ->
  load_payload ev = Raise JSONDecodeError ->
  handler_io cfg ev = (json_response 400 "error" "Invalid JSON payload", []).
Proof.
  intros Hm Ha El. rewrite handler_io_after_auth by assumption.
  unfold process_payload_io. now rewrite El.
Qed.

(** X5.  An authenticated POST whose body is [None], or parses to a JSON value
    that is not an object, is answered with the 500 of the generic
    [except] (not 400, and before the chat URL is looked at), and makes
    no outbound request. *)
Theorem unusable_body_is_internal_error (cfg : config) (ev : event) :
  httpMethod ev = Some (lit "POST") -> auth_passed cfg ev = true ->
  body ev = Some None
  \/ (exists payload, load_payload ev = Ok payload /\ is_dict payload = false) ->
  handler_io cfg ev = (internal_error, []).
Proof.
  intros Hm Ha H. rewrite handler_io_after_auth by assumption.
  unfold process_payload_io. destruct H as [Hb | (payload & El & Hd)].
  - unfold load_payload. now rewrite Hb.
  - rewrite El. destruct payload; try reflexivity. discriminate Hd.
Qed.

(** X6.  When the formatter raises on the parsed payload of an
    authenticated POST (the chat URL being configured), the handler
    answers with the 500 of the generic [except] and makes no outbound
    request. *)
Theorem formatter_exception_is_internal_error (cfg : config) (ev : event)
        (payload : json) (e : exn) :
  httpMethod ev = Some (lit "POST") -> auth_passed cfg ev = true ->
  env_set (GOOGLE_CHAT_WEBHOOK_URL cfg) = true ->
  load_payload ev = Ok payload ->
  format_ado_event_card payload = Raise e ->
  handler_io cfg ev = (internal_error, []).
Proof.
  intros Hm Ha Hu El Ef. rewrite handler_io_after_auth by assumption.
  unfold process_payload_io. rewrite El, Hu.
  destruct (py_get payload _ _); [|reflexivity]. cbn [negb]. now rewrite Ef.
Qed.

(** X7.  The status of every answer of [handler] is one of 200, 400, 401, 405
    and 500. *)
Theorem handler_status_codes (cfg : config) (ev : event) :
  In (statusCode (handler cfg ev)) [200; 400; 401; 405; 500]%Z.
Proof.
  unfold handler. destruct (negb (is_post ev)); [cbn; auto|].
  destruct (negb (auth_passed cfg ev)); [cbn; auto 6|].
  destruct (process_payload_status cfg ev) as [E|[E|E]]; rewrite E; cbn; auto 6.
Qed.

End EffectProperties.

(** ** Trimmed segments *)

Lemma lstrip_suffix (s : pystr) : exists p, s = p ++ lstrip s.
Proof.
  induction s as [|c s [p IH]]; [exists []; reflexivity|].
  simpl. destruct (is_space c); [|exists []; reflexivity].
  exists (c :: p). simpl. now rewrite <- IH.
Qed.

Lemma lstrip_head (s : pystr) (c : N) (t : pystr) :
  lstrip s = c :: t -> is_space c = false.
Proof.
  induction s as [|x s IH]; [discriminate|]. simpl.
  destruct (is_space x) eqn:E; [exact IH|]. intros H. injection H as <- _. exact E.
Qed.

Lemma lstrip_fixed (s : pystr) :
  match s with c :: _ => is_space c = false | [] => True end -> lstrip s = s.
Proof. destruct s as [|c s]; [reflexivity|]. simpl. now intros ->. Qed.

Lemma py_strip_ends (s : pystr) :
  lstrip (py_strip s) = py_strip s /\ lstrip (rev (py_strip s)) = rev (py_strip s).
Proof.
  unfold py_strip. set (t := lstrip s). set (u := lstrip (rev t)).
  rewrite rev_involutive. split.
  - apply lstrip_fixed. destruct (rev u) as [|c r] eqn:Er; [exact I|].
    destruct (lstrip_suffix (rev t)) as [p Hp]. fold u in Hp.
    apply (f_equal (@rev N)) in Hp. rewrite rev_involutive, rev_app_distr, Er in Hp.
    simpl in Hp. unfold t in Hp. now apply lstrip_head in Hp.
  - apply lstrip_fixed. destruct u as [|c r] eqn:Eu; [exact I|].
    unfold u in Eu. now apply lstrip_head in Eu.
Qed.

Lemma py_strip_fixed (s : pystr) : py_strip (py_strip s) = py_strip s.
Proof.
  destruct (py_strip_ends s) as [H1 H2]. unfold py_strip at 1.
  now rewrite H1, H2, rev_involutive.
Qed.

(** X8.  The segments kept by line 75 are never empty and carry no white space
    at either end: stripping one again changes nothing. *)
Theorem segments_are_trimmed (s seg : pystr) :
  In seg (segments s) ->
  seg <> [] /\ py_strip seg = seg
  /\ lstrip seg = seg /\ lstrip (rev seg) = rev seg.
Proof.
  unfold segments. intros H. apply filter_In in H as [H Hn].
  apply in_map_iff in H as (part & <- & _).
  split; [now apply nonempty_neq|]. split; [apply py_strip_fixed|].
  apply py_strip_ends.
Qed.

Lemma last_default (l : list pystr) (d d' : pystr) :
  l <> [] -> List.last l d = List.last l d'.
Proof.
  induction l as [|x l IH]; [congruence|]. intros _.
  destruct l as [|y l]; [reflexivity|]. cbn [List.last] in *. apply IH. discriminate.
Qed.

Lemma last_in (l : list pystr) (d : pystr) : l <> [] -> In (List.last l d) l.
Proof.
  induction l as [|x l IH]; [congruence|]. intros _.
  destruct l as [|y l]; [now left|]. right. apply IH. discriminate.
Qed.

Lemma segments_of_empty (s : pystr) : segments s <> [] -> nonempty s = true.
Proof. destruct s; [intros H; now elim H | reflexivity]. Qed.

Lemma extract_last_segment (fields detailed : json) (s : pystr) :
  is_dict detailed = true ->
  field detailed "text" JNull = JStr s ->
  segments s <> [] ->
  List.last (segments s) [] <> lit "No comment text found." ->
  extract_comment_text fields detailed = Ok (JStr (List.last (segments s) [])).
Proof.
  intros Hd Et Hs Hm. unfold extract_comment_text.
  rewrite py_get_field by assumption. cbn [bind]. rewrite Et.
  cbn [py_truthy stripped_parts]. rewrite (segments_of_empty s Hs). cbn [bind].
  fold (segments s). rewrite (last_default (segments s) _ [] Hs).
  cbn [json_eq_str]. apply pystr_eqb_neq in Hm. now rewrite Hm.
Qed.

Section MoreFormatter.
Context {rt : PyRuntime}.

Lemma resolve_project_name_value (payload : json) :
  common_shape payload = true ->
  resolve_project_name payload (field (field payload "resource" (JObj [])) "fields" (JObj []))
  = Ok (project_name_of payload).
Proof.
  intros H. common_facts H. unfold resolve_project_name, project_name_of. cbv zeta.
  rewrite py_get_field by assumption. cbn [bind].
  destruct (py_truthy _); [reflexivity|].
  rewrite (py_get_field payload) by assumption. cbn [bind].
  rewrite py_get_field by assumption. cbn [bind].
  now rewrite py_get_field by assumption.
Qed.

Lemma format_branches (payload : json) :
  common_shape payload = true ->
  format_ado_event_card payload =
  if json_eq_str (event_type payload) "workitem.commented" then
    comment_card (field payload "resource" (JObj []))
      (field (field payload "resource" (JObj [])) "fields" (JObj []))
      (field payload "message" (JObj [])) (field payload "detailedMessage" (JObj []))
      (project_name_of payload)
  else if json_eq_str (event_type payload) "git.pullrequest.created" then
    pullrequest_card (field payload "resource" (JObj [])) (project_name_of payload)
  else Ok None.
Proof.
  intros H. pose proof (resolve_project_name_value payload H) as Ep. common_facts H.
  unfold format_ado_event_card, event_type.
  rewrite !(py_get_field payload) by assumption. cbn [bind].
  rewrite py_get_field by assumption. cbn [bind].
  rewrite Ep. reflexivity.
Qed.

(** X9.  An event of any other type than the two handled ones gives nothing:
    the formatter returns [None] whenever the payload, its resource, the
    resource's fields and the project containers are objects. *)
Theorem unhandled_event_type_gives_nothing (payload : json) :
  common_shape payload = true ->
  json_eq_str (event_type payload) "workitem.commented" = false ->
  json_eq_str (event_type payload) "git.pullrequest.created" = false ->
  format_ado_event_card payload = Ok None.
Proof. intros H E1 E2. rewrite format_branches by assumption. now rewrite E1, E2. Qed.

Lemma comment_card_value (resource fields message detailed project link : json)
      (text : pystr) :
  is_dict resource = true -> is_dict fields = true ->
  is_dict (field fields "System.ChangedBy" (JObj [])) = true ->
  extract_comment_text fields detailed = Ok (JStr text) ->
  extract_work_item_link message resource = Ok link ->
  str_contains tag_to_find text = true ->
  exists m,
    comment_card resource fields message detailed project = Ok (Some m)
    /\ then_member (first_item (member m "cardsV2")) "cardId"
       = Some (JStr ("comment-wi-" +++ py_str (field resource "id" (JStr "N/A")) +++ "-rev-"
                       +++ py_str (field resource "rev" (JStr "N/A"))))
    /\ message_widgets m
       = [text_paragraph ("<b>Project:</b> " +++ py_str project);
          text_paragraph ("<b>Comment:</b>" +++ [10%N] +++ text)]
         ++ (if json_eq_str link "#" then [] else [link_button "View Work Item" link]).
Proof.
  intros Hr Hf Hc Et El Hs. unfold comment_card.
  rewrite !(py_get_field resource) by assumption.
  rewrite !(py_get_field fields) by assumption. cbn [bind].
  rewrite py_get_field by assumption. cbn [bind].
  rewrite Et, El. cbn [bind py_in]. rewrite Hs. cbn [bind].
  eexists. split; [reflexivity|]. split; [reflexivity|].
  destruct (json_eq_str link "#"); reflexivity.
Qed.

(** X10.  The card of a well-typed comment that carries the mention: its identifier is
    made of the work item id and revision, its widgets are the project
    paragraph (team project, else the project container's name, else the
    placeholder), the comment paragraph with the extracted text, and a
    button to the chosen link unless that is ["#"]. *)
Theorem comment_card_contents (payload : json) (text : pystr) :
  inbound_event payload = true ->
  json_eq_str (event_type payload) "workitem.commented" = true ->
  comment_text_of payload = Ok (JStr text) ->
  str_contains tag_to_find text = true ->
  exists m,
    format_ado_event_card payload = Ok (Some m)
    /\ then_member (first_item (member m "cardsV2")) "cardId"
       = Some (JStr ("comment-wi-"
                       +++ py_str (field (field payload "resource" (JObj [])) "id" (JStr "N/A"))
                       +++ "-rev-"
                       +++ py_str (field (field payload "resource" (JObj [])) "rev"
                                     (JStr "N/A"))))
    /\ message_widgets m
       = [text_paragraph ("<b>Project:</b> " +++ py_str (project_name_of payload));
          text_paragraph ("<b>Comment:</b>" +++ [10%N] +++ text)]
         ++ (if json_eq_str
                  (real_link_by_precedence (field payload "message" (JObj []))
                     (field payload "resource" (JObj []))) "#"
             then []
             else [link_button "View Work Item"
                     (real_link_by_precedence (field payload "message" (JObj []))
                        (field payload "resource" (JObj [])))]).
Proof.
  intros H He Et Hs. pose proof (inbound_event_common payload H) as Hc.
  pose proof (inbound_comment_event payload H He) as Hm.
  rewrite format_branches, He by assumption.
  common_facts Hc. comment_facts Hm.
  apply comment_card_value; trivial.
  - unfold comment_text_of in Et. rewrite !(py_get_field payload) in Et by assumption.
    cbn [bind] in Et. now rewrite py_get_field in Et by assumption.
  - now apply extract_work_item_link_real.
Qed.

(** X11.  On a well-typed [workitem.commented] event only the last
    non-empty segment of the detailed text counts, the segments being
    what CR LF separates (a text broken by LF alone is one segment): when
    that segment is not the marker text, it is the comment text, and the
    card is produced exactly when it contains the mention, whatever the
    earlier segments hold. *)
Theorem mention_counts_in_last_segment_only (payload : json) (s : pystr) :
  inbound_event payload = true ->
  json_eq_str (event_type payload) "workitem.commented" = true ->
  field (field payload "detailedMessage" (JObj [])) "text" JNull = JStr s ->
  segments s <> [] ->
  List.last (segments s) [] <> lit "No comment text found." ->
  comment_text_of payload = Ok (JStr (List.last (segments s) []))
  /\ ((exists m, format_ado_event_card payload = Ok (Some m))
      <-> str_contains tag_to_find (List.last (segments s) []) = true)
  /\ (str_contains tag_to_find (List.last (segments s) []) = false ->
      format_ado_event_card payload = Ok None).
Proof.
  intros H He Et Hs Hl. pose proof (inbound_event_common payload H) as Hc.
  pose proof (inbound_comment_event payload H He) as Hm.
  rewrite format_branches, He by assumption.
  common_facts Hc. comment_facts Hm.
  pose proof (extract_last_segment
                (field (field payload "resource" (JObj [])) "fields" (JObj []))
                _ s Hdetailed Et Hs Hl) as Ex.
  pose proof (extract_work_item_link_real _ _ Hmessage Hmarkdown Hhtml Hresource Hlinks Hlhtml)
    as El.
  pose proof (comment_card_gate _ _ _ _ (project_name_of payload) _ _
                Hresource Hfields Hchanged Ex El) as G.
  split.
  - unfold comment_text_of. rewrite !(py_get_field payload) by assumption. cbn [bind].
    now rewrite py_get_field by assumption.
  - destruct (str_contains tag_to_find _).
    + destruct G as (m & -> & _). split; [split; eauto | discriminate].
    + rewrite G. split; [|reflexivity]. split; [intros [m Hm']; discriminate | discriminate].
Qed.

Lemma pullrequest_card_value (resource project : json) (source target : pystr) :
  is_dict resource = true ->
  is_dict (field resource "repository" (JObj [])) = true ->
  is_dict (field (field resource "repository" (JObj [])) "project" (JObj [])) = true ->
  is_dict (field resource "createdBy" (JObj [])) = true ->
  is_dict (field resource "_links" (JObj [])) = true ->
  is_dict (field (field resource "_links" (JObj [])) "web" (JObj [])) = true ->
  field resource "sourceRefName" (JStr "N/A") = JStr source ->
  field resource "targetRefName" (JStr "N/A") = JStr target ->
  exists m,
    pullrequest_card resource project = Ok (Some m)
    /\ then_member (message_header m) "subtitle"
       = Some (JStr ("Repo: "
                       +++ py_str (field (field resource "repository" (JObj [])) "name"
                                     (JStr "N/A"))
                       +++ " | Project: "
                       +++ py_str (field (field (field resource "repository" (JObj []))
                                            "project" (JObj [])) "name" project)))
    /\ message_widgets m
       = [decorated_text "Title" (field resource "title" (JStr "N/A"));
          decorated_text "Created By"
            (field (field resource "createdBy" (JObj [])) "displayName" (JStr "N/A"));
          decorated_text "Branches"
            (JStr (py_replace "refs/heads/" "" source +++ " " +++ arrow +++ " "
                     +++ py_replace "refs/heads/" "" target))]
         ++ (if json_eq_str (pullrequest_link resource) "#" then []
             else [link_button "View Pull Request" (pullrequest_link resource)]).
Proof.
  intros Hr Hrepo Hproj Hcb Hl Hw Es Et. unfold pullrequest_card, pullrequest_link.
  rewrite !(py_get_field resource) by assumption. cbn [bind].
  rewrite !py_get_field by assumption. cbn [bind].
  rewrite !py_get_field by assumption. cbn [bind].
  rewrite Es, Et. cbn [str_replace bind]. cbv zeta.
  destruct (json_eq_str (field _ "href" _) "#"); cbn [bind];
    eexists; (split; [reflexivity|]); (split; [reflexivity|]);
    destruct (json_eq_str _ "#"); reflexivity.
Qed.

(** X12.  The card of a well-typed pull request: the subtitle names the repository and the
    repository's own project in preference to the project of the event;
    the widgets are the title, the creator and the branch line, and a
    button to [_links.web.href], else [url], unless that link is ["#"]. *)
Theorem pullrequest_card_contents (payload : json) (source target : pystr) :
  inbound_event payload = true ->
  json_eq_str (event_type payload) "git.pullrequest.created" = true ->
  field (field payload "resource" (JObj [])) "sourceRefName" (JStr "N/A") = JStr source ->
  field (field payload "resource" (JObj [])) "targetRefName" (JStr "N/A") = JStr target ->
  exists m,
    format_ado_event_card payload = Ok (Some m)
    /\ then_member (message_header m) "subtitle"
       = Some (JStr ("Repo: "
                       +++ py_str (field (field (field payload "resource" (JObj []))
                                            "repository" (JObj [])) "name" (JStr "N/A"))
                       +++ " | Project: "
                       +++ py_str (field (field (field (field payload "resource" (JObj []))
                                                   "repository" (JObj []))
                                            "project" (JObj [])) "name"
                                     (project_name_of payload))))
    /\ message_widgets m
       = [decorated_text "Title"
            (field (field payload "resource" (JObj [])) "title" (JStr "N/A"));
          decorated_text "Created By"
            (field (field (field payload "resource" (JObj [])) "createdBy" (JObj []))
               "displayName" (JStr "N/A"));
          decorated_text "Branches"
            (JStr (py_replace "refs/heads/" "" source +++ " " +++ arrow +++ " "
                     +++ py_replace "refs/heads/" "" target))]
         ++ (if json_eq_str (pullrequest_link (field payload "resource" (JObj []))) "#"
             then []
             else [link_button "View Pull Request"
                     (pullrequest_link (field payload "resource" (JObj [])))]).
Proof.
  intros H He Es Et. pose proof (inbound_event_common payload H) as Hc.
  rewrite format_branches by assumption.
  destruct (json_eq_str (event_type payload) "workitem.commented") eqn:Ec.
  - unfold json_eq_str in *. destruct (event_type payload); try discriminate.
    apply pystr_eqb_eq in Ec, He. subst. discriminate.
  - rewrite He. common_facts Hc.
    pose proof (inbound_pullrequest_event payload H Ec He) as Hp. pullrequest_facts Hp.
    now apply pullrequest_card_value.
Qed.

End MoreFormatter.

(** ** The two patterns *)

Lemma rx_match_char (c : N) (r : list rx_item) (s : pystr) :
  rx_match (RChar c :: r) s
  = match s with
    | x :: s' => if N.eqb x c then rx_match r s' else None
    | [] => None
    end.
Proof. reflexivity. Qed.

Lemma rx_match_lazy (r : list rx_item) (s : pystr) :
  rx_match (RLazyAny :: r) s
  = match rx_match r s with
    | Some g => Some g
    | None =>
        match s with
        | x :: s' => if N.eqb x 10 then None else rx_match (RLazyAny :: r) s'
        | [] => None
        end
    end.
Proof. destruct s; reflexivity. Qed.

Lemma rx_match_group (r : list rx_item) (s : pystr) :
  rx_match (RGroupLazyAny :: r) s
  = match rx_match r s with
    | Some _ => Some []
    | None =>
        match s with
        | x :: s' =>
            if N.eqb x 10 then None
            else match rx_match (RGroupLazyAny :: r) s' with
                 | Some g => Some (x :: g)
                 | None => None
                 end
        | [] => None
        end
    end.
Proof. destruct s; reflexivity. Qed.

Lemma rx_chars_sound (p : pystr) (r : list rx_item) (s g : pystr) :
  rx_match (rx_chars p ++ r) s = Some g ->
  exists t, s = p ++ t /\ rx_match r t = Some g.
Proof.
  revert s. induction p as [|c p IH]; intros s.
  { intros H. exists s. auto. }
  change (rx_chars (c :: p) ++ r) with (RChar c :: rx_chars p ++ r).
  rewrite rx_match_char. destruct s as [|x s]; [discriminate|].
  destruct (N.eqb x c) eqn:E; [|discriminate]. apply N.eqb_eq in E. subst x.
  intros H. apply IH in H as (t & -> & H). exists t. auto.
Qed.

Lemma rx_chars_complete (p : pystr) (r : list rx_item) (t : pystr) :
  rx_match (rx_chars p ++ r) (p ++ t) = rx_match r t.
Proof.
  induction p as [|c p IH]; [reflexivity|].
  change (rx_chars (c :: p) ++ r) with (RChar c :: rx_chars p ++ r).
  cbn [app]. rewrite rx_match_char, N.eqb_refl. exact IH.
Qed.

Lemma rx_lazy_sound (r : list rx_item) (s g : pystr) :
  rx_match (RLazyAny :: r) s = Some g ->
  exists a t, s = a ++ t /\ ~ In 10%N a /\ rx_match r t = Some g.
Proof.
  induction s as [|x s IH]; rewrite rx_match_lazy.
  - destruct (rx_match r []) eqn:E; [|discriminate].
    intros H. injection H as <-. exists [], []. auto.
  - destruct (rx_match r (x :: s)) eqn:E.
    + intros H. injection H as <-. exists [], (x :: s). auto.
    + destruct (N.eqb x 10) eqn:Ex; [discriminate|]. apply N.eqb_neq in Ex.
      intros H. apply IH in H as (a & t & -> & Ha & H).
      exists (x :: a), t. repeat split; trivial.
      intros [Hx|Hx]; [congruence | contradiction].
Qed.

Lemma rx_lazy_complete (r : list rx_item) (a t g : pystr) :
  ~ In 10%N a -> rx_match r t = Some g ->
  exists g', rx_match (RLazyAny :: r) (a ++ t) = Some g'.
Proof.
  intros Ha Ht. induction a as [|x a IH]; rewrite rx_match_lazy.
  - cbn [app]. rewrite Ht. eauto.
  - cbn [app]. destruct (rx_match r (x :: a ++ t)); [eauto|].
    destruct (N.eqb x 10) eqn:Ex.
    + apply N.eqb_eq in Ex. exfalso. apply Ha. now left.
    + apply IH. intros Hin. apply Ha. now right.
Qed.

(** The group takes the shortest text after which the rest matches. *)
Lemma rx_group_sound (r : list rx_item) (s g : pystr) :
  rx_match (RGroupLazyAny :: r) s = Some g ->
  exists t,
    s = g ++ t /\ ~ In 10%N g /\ rx_match r t <> None
    /\ forall a c b, g = a ++ c :: b -> rx_match r (c :: b ++ t) = None.
Proof.
  revert g. induction s as [|x s IH]; intros g; rewrite rx_match_group.
  - destruct (rx_match r []) eqn:E; [|discriminate].
    intros H. injection H as <-. exists []. repeat split; auto.
    + congruence.
    + intros a c b H. destruct a; discriminate.
  - destruct (rx_match r (x :: s)) eqn:E.
    + intros H. injection H as <-. exists (x :: s). repeat split; auto.
      * congruence.
      * intros a c b H. destruct a; discriminate.
    + destruct (N.eqb x 10) eqn:Ex; [discriminate|]. apply N.eqb_neq in Ex.
      destruct (rx_match (RGroupLazyAny :: r) s) as [g'|] eqn:Eg; [|discriminate].
      intros H. injection H as <-.
      destruct (IH g' eq_refl) as (t & -> & Hg & Ht & Hmin).
      exists t. repeat split; trivial.
      * intros [Hx|Hx]; [congruence | contradiction].
      * intros a c b H. destruct a as [|y a].
        -- injection H as <- <-. exact E.
        -- injection H as _ H. now apply Hmin with a.
Qed.

Lemma rx_group_complete (r : list rx_item) (a t g : pystr) :
  ~ In 10%N a -> rx_match r t = Some g ->
  exists g', rx_match (RGroupLazyAny :: r) (a ++ t) = Some g'.
Proof.
  intros Ha Ht. induction a as [|x a IH]; rewrite rx_match_group.
  - cbn [app]. rewrite Ht. eauto.
  - cbn [app]. destruct (rx_match r (x :: a ++ t)); [eauto|].
    destruct (N.eqb x 10) eqn:Ex.
    + apply N.eqb_eq in Ex. exfalso. apply Ha. now left.
    + destruct IH as [g' ->]; [|eauto]. intros Hin. apply Ha. now right.
Qed.

Lemma rx_search_sound (r : list rx_item) (s g : pystr) :
  rx_search r s = Some g -> exists pre t, s = pre ++ t /\ rx_match r t = Some g.
Proof.
  induction s as [|x s IH]; cbn [rx_search].
  - destruct (rx_match r []) eqn:E; [|discriminate].
    intros H. injection H as <-. exists [], []. auto.
  - destruct (rx_match r (x :: s)) eqn:E.
    + intros H. injection H as <-. exists [], (x :: s). auto.
    + intros H. apply IH in H as (pre & t & -> & H). exists (x :: pre), t. auto.
Qed.

Lemma rx_search_complete (r : list rx_item) (pre t g : pystr) :
  rx_match r t = Some g -> exists g', rx_search r (pre ++ t) = Some g'.
Proof.
  intros Ht. induction pre as [|x pre IH].
  - cbn [app]. destruct t; cbn [rx_search]; rewrite Ht; eauto.
  - cbn [app rx_search]. destruct (rx_match r (x :: pre ++ t)); eauto.
Qed.

(** X13.  What the markdown pattern finds is a link: the text has the form
    [...[text](url)...] around the URL found, the link text is on one
    line, and the URL holds neither a newline nor a closing parenthesis. *)
Theorem markdown_link_found_is_a_link (s url : pystr) :
  rx_search markdown_link_re s = Some url ->
  (exists pre text post,
      s = pre ++ lit "[" ++ text ++ lit "](" ++ url ++ lit ")" ++ post
      /\ ~ In 10%N text)
  /\ ~ In 10%N url /\ ~ In 41%N url.
Proof.
  intros H. apply rx_search_sound in H as (pre & t & -> & H).
  unfold markdown_link_re in H.
  apply rx_chars_sound in H as (t1 & -> & H). cbn [app] in H.
  apply rx_lazy_sound in H as (text & t2 & -> & Htext & H).
  change (RChar 93 :: RChar 40 :: RGroupLazyAny :: rx_chars ")")
    with (rx_chars "](" ++ RGroupLazyAny :: rx_chars ")") in H.
  apply rx_chars_sound in H as (t3 & -> & H).
  apply rx_group_sound in H as (t4 & -> & Hurl & Hrest & Hmin).
  destruct (rx_match (rx_chars ")") t4) as [g|] eqn:E; [|congruence].
  change (rx_chars ")") with (rx_chars ")" ++ []) in E.
  apply rx_chars_sound in E as (post & -> & _).
  split; [|split; trivial].
  - exists pre, text, post. split; [reflexivity | exact Htext].
  - intros Hin. apply in_split in Hin as (a & b & ->).
    specialize (Hmin a 41%N b eq_refl). discriminate Hmin.
Qed.

(** X14.  A markdown link written on one line is never missed: the search
    finds a URL in every text that holds one. *)
Theorem markdown_link_on_one_line_is_found (pre text url post : pystr) :
  ~ In 10%N text -> ~ In 10%N url ->
  exists found,
    rx_search markdown_link_re (pre ++ lit "[" ++ text ++ lit "](" ++ url ++ lit ")" ++ post)
    = Some found.
Proof.
  intros Htext Hurl.
  assert (Hg : exists g, rx_match (RGroupLazyAny :: rx_chars ")") (url ++ lit ")" ++ post)
                         = Some g).
  { apply rx_group_complete with (g := []); [exact Hurl|]. reflexivity. }
  destruct Hg as [g Hg].
  assert (Hm : exists g', rx_match markdown_link_re
                            (lit "[" ++ text ++ lit "](" ++ url ++ lit ")" ++ post)
                          = Some g').
  { unfold markdown_link_re. rewrite rx_chars_complete. cbn [app].
    change (RChar 93 :: RChar 40 :: RGroupLazyAny :: rx_chars ")")
      with (rx_chars "](" ++ RGroupLazyAny :: rx_chars ")").
    apply rx_lazy_complete with (g := g); [exact Htext|].
    now rewrite rx_chars_complete. }
  destruct Hm as [g' Hm]. now apply rx_search_complete with (g := g').
Qed.

(** X15.  What the anchor pattern finds is the value of an [href]: the text
    holds an anchor tag that opens with [a href=], the value in double
    quotes and the closing bracket, and the value holds neither a newline
    nor a double quote followed by a closing bracket. *)
Theorem anchor_href_found_is_an_href (s url : pystr) :
  rx_search anchor_href_re s = Some url ->
  (exists pre post,
      s = pre ++ lit "<a href=" ++ [34%N] ++ url ++ [34%N] ++ lit ">" ++ post)
  /\ ~ In 10%N url /\ str_contains ([34%N] +++ ">") url = false.
Proof.
  intros H. apply rx_search_sound in H as (pre & t & -> & H).
  unfold anchor_href_re in H.
  apply rx_chars_sound in H as (t1 & -> & H). cbn [app] in H.
  apply rx_group_sound in H as (t2 & -> & Hurl & Hrest & Hmin).
  destruct (rx_match (rx_chars ([34%N] +++ ">")) t2) as [g|] eqn:E; [|congruence].
  change (rx_chars ([34%N] +++ ">")) with (rx_chars ([34%N] +++ ">") ++ []) in E.
  apply rx_chars_sound in E as (post & -> & _).
  split; [|split; trivial].
  - exists pre, post. reflexivity.
  - clear Hurl Hrest. induction url as [|c url IH]; [reflexivity|].
    cbn [str_contains]. apply orb_false_iff. split.
    + specialize (Hmin [] c url eq_refl).
      destruct url as [|d url].
      { change (starts_with ([34%N] +++ ">") [c]) with ((34 =? c)%N && false).
        apply andb_false_r. }
      cbn [app] in Hmin.
      change (rx_chars ([34%N] +++ ">")) with [RChar 34; RChar 62] in Hmin.
      rewrite !rx_match_char in Hmin.
      change (starts_with ([34%N] +++ ">") (c :: d :: url))
        with ((34 =? c)%N && ((62 =? d)%N && true)).
      rewrite (N.eqb_sym 34 c), (N.eqb_sym 62 d).
      destruct (N.eqb c 34); [|reflexivity].
      destruct (N.eqb d 62); [discriminate Hmin | reflexivity].
    + apply IH. intros a x b ->. apply (Hmin (c :: a) x b). reflexivity.
Qed.

Section Composition.
Context {rt : PyRuntime}.


(** X17.  An authenticated POST of a pull request event makes exactly one
    outbound request, to the configured chat URL with the card as body,
    and is answered 200 when the endpoint accepts it and 500 when the
    endpoint answers 4xx or 5xx or the request raises. *)
Theorem pull_request_is_posted_once (cfg : config) (ev : event) (payload : json)
        (url : pystr) :
  httpMethod ev = Some (lit "POST") -> auth_passed cfg ev = true ->
  GOOGLE_CHAT_WEBHOOK_URL cfg = Some url -> url <> [] ->
  load_payload ev = Ok payload ->
  inbound_event payload = true ->
  json_eq_str (event_type payload) "git.pullrequest.created" = true ->
  exists m,
    format_ado_event_card payload = Ok (Some m)
    /\ snd (handler_io cfg ev) = [(url, m)]
    /\ statusCode (fst (handler_io cfg ev))
       = match requests_post url m with
         | Responded status => if raises_for_status status then 500%Z else 200%Z
         | RequestException => 500%Z
         | OtherException => 500%Z
         end.
Proof.
  intros Hm Ha Hu Hn El H He. rewrite handler_io_after_auth by assumption.
  pose proof (inbound_event_common payload H) as Hc.
  assert (Ec : json_eq_str (event_type payload) "workitem.commented" = false).
  { unfold json_eq_str in *. destruct (event_type payload); trivial.
    apply pystr_eqb_eq in He. subst. reflexivity. }
  destruct (pullrequest_card_on_event payload (project_name_of payload) Hc
              (inbound_pullrequest_event payload H Ec He)) as [m Em].
  assert (Ef : format_ado_event_card payload = Ok (Some m)).
  { rewrite format_branches by assumption. now rewrite Ec, He. }
  exists m. split; [exact Ef|].
  apply nonempty_neq in Hn.
  unfold process_payload_io. rewrite El.
  rewrite py_get_field by (now apply format_ok_dict with (Some m)).
  unfold env_set. rewrite Hu, Hn, Ef. cbn [negb].
  rewrite (well_formed_truthy m (format_card_well_formed payload m Ef)).
  unfold send_to_google_chat_io. rewrite Hu, Hn.
  split; [reflexivity|].
  destruct (requests_post url m) as [status| |]; cbn [fst]; try reflexivity.
  destruct (raises_for_status status); reflexivity.
Qed.

End Composition.


Section MoreProperties.
Context {rt : PyRuntime}.

(** X18.  Credentials that can never match: with a configured user name that
    is empty or holds a colon, or an empty configured password, every
    POST is answered 401 (the header is split at its first colon) and no
    outbound request is made. *)
Theorem unusable_credentials_reject_every_post (cfg : config) (ev : event) :
  httpMethod ev = Some (lit "POST") ->
  (exists user, ADO_WEBHOOK_USER cfg = Some user /\ (user = [] \/ In 58%N user))
  \/ ADO_WEBHOOK_PASS cfg = Some [] ->
  handler_io cfg ev = (json_response 401 "error" "Authentication Required", []).
Proof.
  intros Hm H. unfold handler_io. rewrite (is_post_method ev Hm). cbn [negb].
  destruct (auth_passed cfg ev) eqn:Ha; [|reflexivity]. exfalso.
  apply auth_passed_iff in Ha
    as (header & user & pass & _ & Eu & Ep & Hu & Hp & scheme & encoded & raw & C).
  destruct C as (_ & _ & _ & _ & _ & Hc).
  destruct H as [(user' & Eu' & [-> | Hin]) | Ep'].
  - rewrite Eu in Eu'. injection Eu' as ->. now apply Hu.
  - rewrite Eu in Eu'. injection Eu' as ->. now apply Hc.
  - rewrite Ep in Ep'. injection Ep' as ->. now apply Hp.
Qed.

(** X19.  On a well-typed pull request, for ref names that carry the
    prefix [refs/heads/] once, at their start, the branch line of the
    card shows the two branch names. *)
Theorem plain_branch_names_are_shown (payload : json) (source target : pystr) :
  inbound_event payload = true ->
  json_eq_str (event_type payload) "git.pullrequest.created" = true ->
  field (field payload "resource" (JObj [])) "sourceRefName" (JStr "N/A")
  = JStr (lit "refs/heads/" ++ source) ->
  field (field payload "resource" (JObj [])) "targetRefName" (JStr "N/A")
  = JStr (lit "refs/heads/" ++ target) ->
  str_contains "refs/heads/" source = false ->
  str_contains "refs/heads/" target = false ->
  exists m,
    format_ado_event_card payload = Ok (Some m)
    /\ labelled_text "Branches" (message_widgets m)
       = Some (JStr (source +++ " " +++ arrow +++ " " +++ target)).
Proof.
  intros H He Es Et Hs Ht.
  destruct (pullrequest_gets_card payload _ _ H He Es Et) as (m & Ef & Hb).
  exists m. split; [exact Ef|]. rewrite Hb.
  assert (Hp : forall name, str_contains "refs/heads/" name = false ->
                            py_replace "refs/heads/" "" (lit "refs/heads/" ++ name) = name).
  { intros name Hn.
    change (py_replace "refs/heads/" "" (lit "refs/heads/" ++ name))
      with (py_replace "refs/heads/" [] (lit "refs/heads/" ++ name)).
    rewrite replace_strips_single_prefix by (trivial; discriminate).
    unfold strip_prefix.
    assert (Hsw : starts_with "refs/heads/" (lit "refs/heads/" ++ name) = true)
      by (apply starts_with_prefix; eauto).
    rewrite Hsw. reflexivity. }
  now rewrite (Hp source Hs), (Hp target Ht).
Qed.

End MoreProperties.

(** X20.  A detailed text that is missing, empty, or made of white space and
    line breaks only gives the history field as comment text, as it is,
    and the placeholder when that field is missing too. *)
Theorem blank_detailed_text_falls_back (fields detailed : json) :
  is_dict detailed = true -> is_dict fields = true ->
  py_truthy (field detailed "text" JNull) = false
  \/ (exists s, field detailed "text" JNull = JStr s /\ segments s = []) ->
  extract_comment_text fields detailed
  = Ok (field fields "System.History" (JStr "Could not retrieve comment text.")).
Proof.
  intros Hd Hf H. unfold extract_comment_text.
  rewrite (py_get_field detailed) by assumption.
  rewrite (py_get_field fields) by assumption. cbn [bind].
  destruct H as [Hfalse | (s & Es & Hseg)].
  - rewrite Hfalse. cbn [bind json_eq_str]. now rewrite pystr_eqb_refl.
  - rewrite Es. cbn [py_truthy stripped_parts]. fold (segments s). rewrite Hseg.
    destruct (nonempty s); cbn [bind List.last json_eq_str]; now rewrite pystr_eqb_refl.
Qed.


(** ** Sample requests for the properties above *)

Lemma non_post_is_rejected_witness :
  @handler_io Sample.chat_up Sample.configured
    {| httpMethod := Some (lit "GET"); headers := None; body := None |}
  = (@json_response Sample.chat_up 405 "error" "Method Not Allowed", []).
Proof. apply (@non_post_is_rejected Sample.chat_up). discriminate. Defined.

Lemma invalid_json_is_rejected_witness :
  @load_payload Sample.chat_up (Sample.post_with (Some (Some (lit "{not json"))))
  = Raise JSONDecodeError
  /\ @handler_io Sample.chat_up Sample.without_chat_url
       (Sample.post_with (Some (Some (lit "{not json"))))
     = (@json_response Sample.chat_up 400 "error" "Invalid JSON payload", []).
Proof.
  split; [reflexivity|].
  apply (@invalid_json_is_rejected Sample.chat_up); reflexivity.
Defined.

Lemma unusable_body_is_internal_error_witness :
  @handler_io Sample.chat_up Sample.configured (Sample.post_with (Some None))
  = (@internal_error Sample.chat_up, [])
  /\ @handler_io Sample.chat_up Sample.configured
       (Sample.post_with (Some (Some (lit "[]"))))
     = (@internal_error Sample.chat_up, []).
Proof.
  split.
  - apply (@unusable_body_is_internal_error Sample.chat_up);
      [reflexivity | reflexivity | left; reflexivity].
  - apply (@unusable_body_is_internal_error Sample.chat_up);
      [reflexivity | reflexivity | right; exists (JList []); split; reflexivity].
Defined.

Lemma formatter_exception_is_internal_error_witness :
  @format_ado_event_card Legacy.chat_up Sample.legacy_comment_event = Raise AttributeError
  /\ @handler_io Legacy.chat_up Sample.configured
       (Sample.post_with (Some (Some (Sample.dumps Sample.legacy_comment_event))))
     = (@internal_error Legacy.chat_up, []).
Proof.
  split; [reflexivity|].
  apply (@formatter_exception_is_internal_error Legacy.chat_up Sample.configured _
           Sample.legacy_comment_event AttributeError); reflexivity.
Defined.

Lemma segments_are_trimmed_witness :
  In (lit "thanks")
     (segments ("@Francisco Aliss please look" +++ [13%N; 10%N] +++ "  thanks  "))
  /\ py_strip (lit "thanks") = lit "thanks".
Proof.
  assert (H : In (lit "thanks")
                 (segments ("@Francisco Aliss please look" +++ [13%N; 10%N] +++ "  thanks  ")))
    by (right; left; reflexivity).
  split; [exact H|].
  exact (proj1 (proj2 (segments_are_trimmed _ _ H))).
Defined.

Lemma unhandled_event_type_gives_nothing_witness :
  common_shape Sample.unknown_event = true
  /\ @format_ado_event_card Sample.chat_up Sample.unknown_event = Ok None.
Proof.
  split; [reflexivity|].
  apply (@unhandled_event_type_gives_nothing Sample.chat_up); reflexivity.
Defined.

Lemma comment_card_contents_witness :
  exists m,
    @format_ado_event_card Sample.chat_up
      (Sample.comment_event "Please review @Francisco Aliss") = Ok (Some m)
    /\ message_widgets m
       = [@text_paragraph "<b>Project:</b> Platform";
          text_paragraph ("<b>Comment:</b>" +++ [10%N] +++ "Please review @Francisco Aliss")].
Proof.
  destruct (@comment_card_contents Sample.chat_up
              (Sample.comment_event "Please review @Francisco Aliss")
              "Please review @Francisco Aliss" eq_refl eq_refl eq_refl eq_refl)
    as (m & Ef & _ & Hw).
  exists m. split; [exact Ef|]. rewrite Hw. reflexivity.
Defined.

Lemma mention_counts_in_last_segment_only_witness :
  str_contains tag_to_find
    ("@Francisco Aliss please look" +++ [13%N; 10%N] +++ "  thanks  ") = true
  /\ comment_text_of Legacy.two_line_event = Ok (JStr "thanks")
  /\ @format_ado_event_card Sample.chat_up Legacy.two_line_event = Ok None.
Proof.
  split; [reflexivity|].
  destruct (@mention_counts_in_last_segment_only Sample.chat_up Legacy.two_line_event
              ("@Francisco Aliss please look" +++ [13%N; 10%N] +++ "  thanks  ")
              eq_refl eq_refl eq_refl
              ltac:(vm_compute; discriminate) ltac:(vm_compute; discriminate))
    as (Et & _ & Hn).
  split; [exact Et|]. apply Hn. reflexivity.
Defined.

(** A text broken by LF alone is a single segment, so a mention on its
    first line is found. *)
Example lf_broken_text_is_one_segment :
  segments ("@Francisco Aliss please look" +++ [10%N] +++ "thanks")
  = ["@Francisco Aliss please look" +++ [10%N] +++ "thanks"]
  /\ exists m,
      @format_ado_event_card Sample.chat_up
        (Sample.comment_event ("@Francisco Aliss please look" +++ [10%N] +++ "thanks"))
      = Ok (Some m).
Proof. split; [reflexivity|]. eexists. reflexivity. Qed.

Lemma pullrequest_card_contents_witness :
  exists m,
    @format_ado_event_card Sample.chat_up Sample.pr_event = Ok (Some m)
    /\ then_member (message_header m) "subtitle"
       = Some (JStr "Repo: relay | Project: Platform")
    /\ button_url (message_widgets m) = Some (JStr "https://dev.example/pr/42").
Proof.
  destruct (@pullrequest_card_contents Sample.chat_up Sample.pr_event
              "refs/heads/feature/retry" "refs/heads/main"
              eq_refl eq_refl eq_refl eq_refl)
    as (m & Ef & Hs & Hw).
  exists m. split; [exact Ef|]. split; [exact Hs|]. rewrite Hw. reflexivity.
Defined.

Lemma markdown_link_found_is_a_link_witness :
  rx_search markdown_link_re "see [a] and [Bug 7](https://dev.example/7) (new)"
  = Some (lit "https://dev.example/7")
  /\ ~ In 41%N (lit "https://dev.example/7").
Proof.
  split; [reflexivity|].
  exact (proj2 (proj2 (markdown_link_found_is_a_link
                         "see [a] and [Bug 7](https://dev.example/7) (new)"
                         "https://dev.example/7" eq_refl))).
Defined.

Ltac not_in_text :=
  vm_compute; let H := fresh in
  intros H; repeat (destruct H as [H|H]; [discriminate H|]); exact H.

Lemma markdown_link_on_one_line_is_found_witness :
  exists found,
    rx_search markdown_link_re
      (lit "see " ++ lit "[" ++ lit "Bug 7" ++ lit "](" ++ lit "https://dev.example/7"
         ++ lit ")" ++ lit " today") = Some found.
Proof.
  apply (markdown_link_on_one_line_is_found "see " "Bug 7" "https://dev.example/7" " today");
    not_in_text.
Defined.

Lemma anchor_href_found_is_an_href_witness :
  rx_search anchor_href_re (lit "<p>" ++ Sample.anchor "https://dev.example/7?a=1&amp;b=2")
  = Some (lit "https://dev.example/7?a=1&amp;b=2")
  /\ str_contains ([34%N] +++ ">") (lit "https://dev.example/7?a=1&amp;b=2") = false.
Proof.
  split; [reflexivity|].
  exact (proj2 (proj2 (anchor_href_found_is_an_href
                         (lit "<p>" ++ Sample.anchor "https://dev.example/7?a=1&amp;b=2")
                         "https://dev.example/7?a=1&amp;b=2" eq_refl))).
Defined.


Lemma pull_request_is_posted_once_witness :
  exists m,
    @format_ado_event_card Sample.chat_down Sample.pr_event = Ok (Some m)
    /\ snd (@handler_io Sample.chat_down Sample.configured
              (Sample.post_with (Some (Some (Sample.dumps Sample.pr_event)))))
       = [(lit "https://chat.example/hook", m)]
    /\ statusCode (fst (@handler_io Sample.chat_down Sample.configured
                          (Sample.post_with (Some (Some (Sample.dumps Sample.pr_event))))))
       = 500%Z.
Proof.
  destruct (@pull_request_is_posted_once Sample.chat_down Sample.configured
              (Sample.post_with (Some (Some (Sample.dumps Sample.pr_event))))
              Sample.pr_event "https://chat.example/hook"
              eq_refl eq_refl eq_refl ltac:(discriminate) eq_refl eq_refl eq_refl)
    as (m & Ef & Hp & Hs).
  exists m. split; [exact Ef|]. split; [exact Hp|]. rewrite Hs. reflexivity.
Defined.

Lemma unusable_credentials_reject_every_post_witness :
  @handler_io Sample.chat_up
    {| GOOGLE_CHAT_WEBHOOK_URL := Some (lit "https://chat.example/hook");
       ADO_WEBHOOK_USER := Some (lit "team:user");
       ADO_WEBHOOK_PASS := Some (lit "pass") |}
    {| httpMethod := Some (lit "POST");
       headers := Some [("authorization" : pystr, "Basic dGVhbTp1c2VyOnBhc3M=" : pystr)];
       body := None |}
  = (@json_response Sample.chat_up 401 "error" "Authentication Required", []).
Proof.
  apply (@unusable_credentials_reject_every_post Sample.chat_up); [reflexivity|].
  left. exists (lit "team:user"). split; [reflexivity|].
  right. vm_compute. tauto.
Defined.

Lemma plain_branch_names_are_shown_witness :
  exists m,
    @format_ado_event_card Sample.chat_up Sample.pr_event = Ok (Some m)
    /\ labelled_text "Branches" (message_widgets m)
       = Some (JStr ("feature/retry " +++ arrow +++ " main")).
Proof.
  exact (@plain_branch_names_are_shown Sample.chat_up Sample.pr_event
           "feature/retry" "main" eq_refl eq_refl eq_refl eq_refl eq_refl eq_refl).
Defined.

Lemma blank_detailed_text_falls_back_witness :
  segments (lit "   " ++ [13%N; 10%N] ++ lit " ") = []
  /\ extract_comment_text (JObj ["System.History" :-> JStr "earlier note"])
       (JObj ["text" :-> JStr (lit "   " ++ [13%N; 10%N] ++ lit " ")])
     = Ok (JStr "earlier note").
Proof.
  split; [reflexivity|].
  apply (blank_detailed_text_falls_back (JObj ["System.History" :-> JStr "earlier note"])
           (JObj ["text" :-> JStr (lit "   " ++ [13%N; 10%N] ++ lit " ")]));
    [reflexivity | reflexivity |].
  right. eexists. split; reflexivity.
Defined.
